(** * LegalAllyBackend: the three request handlers of [serverfinal.js]

    A shallow embedding of [src/serverfinal.js]: the two provider adapters
    for Groq, the adapter for Gemini, and the three Express handlers
    [/analyzecontract], [/analyzepdf] and [/analyze].

    JavaScript values are an inductive type, exceptions are an error
    monad over an explicit world (file system, the response object [res],
    and a trace of the effects performed).  The external collaborators
    (the two provider SDKs, [pdf-parse], [path.join], base64 encoding)
    are variables of a section: every theorem holds for all of them.

    A handler is run on its own from [await] to [await]: no other request
    changes the response object or the staged file in between (multer
    gives every upload a name of its own).  Every call to a collaborator
    settles, by a value or by an error: a call that never settles leaves
    the request pending, and no theorem here speaks of it. *)

From Stdlib Require Import ZArith String Ascii List Lia.
From Stdlib Require Import Floats.SpecFloat.
From stdpp Require Import base option gmap strings pretty.
Import ListNotations.

#[local] Set Warnings "-register-all".

Local Open Scope string_scope.
Local Open Scope Z_scope.

(* ===================================================================== *)
(** ** JavaScript values *)
(* ===================================================================== *)

(** An [Error] object.  Everything the SDKs, [fs], [pdf-parse] and the
    engine throw is one; the server reads only [error.message]. *)
Record JsError : Type := mkError {
  err_name : string;
  message : string
}.

Definition Error_ (msg : string) : JsError := mkError "Error" msg.
Definition TypeError (msg : string) : JsError := mkError "TypeError" msg.

(** JavaScript values.  Numbers are IEEE-754 doubles ([spec_float]).
    Strings are [string]; a character outside ASCII is carried as its UTF-8
    bytes.  A function value is one the server calls without looking at
    what it does: [JFun v] returns [v] when called, [JFunThrow e] throws. *)
Inductive jsval : Type :=
| JUndefined
| JNull
| JBool (b : bool)
| JNum (n : spec_float)
| JStr (s : string)
| JArr (elems : list jsval)
| JObj (props : list (string * jsval))
| JFun (ret : jsval)
| JFunThrow (e : JsError).

(** The outcome of evaluating an expression or calling a function. *)
Inductive completion (A : Type) : Type :=
| Normal (a : A)
| Throw (e : JsError).
Arguments Normal {A} a.
Arguments Throw {A} e.

(** [ToBoolean]: [undefined], [null], [false], [+0], [-0], [NaN] and the
    empty string are falsy, everything else is truthy. *)
Definition truthy (v : jsval) : bool :=
  match v with
  | JUndefined => false
  | JNull => false
  | JBool b => b
  | JNum (S754_zero _) => false
  | JNum S754_nan => false
  | JNum _ => true
  | JStr EmptyString => false
  | JStr _ => true
  | JArr _ => true
  | JObj _ => true
  | JFun _ => true
  | JFunThrow _ => true
  end.

(** [a || b] on values. *)
Definition js_or (a b : jsval) : jsval := if truthy a then a else b.

(** [v === undefined || v === null], the test of optional chaining. *)
Definition nullish (v : jsval) : bool :=
  match v with
  | JUndefined => true
  | JNull => true
  | _ => false
  end.

Definition type_name (v : jsval) : string :=
  match v with
  | JNull => "null"
  | _ => "undefined"
  end.

(** An own property of an object literal or of a parsed JSON object. *)
Fixpoint own_prop (k : string) (ps : list (string * jsval)) : option jsval :=
  match ps with
  | [] => None
  | (k', v) :: ps' => if String.eqb k k' then Some v else own_prop k ps'
  end.

(** A natural number as a double. *)
Definition num_of_nat (n : nat) : spec_float :=
  binary_normalize 53 1024 (Z.of_nat n) 0 false.

Definition cannot_read (v : jsval) (k : string) : JsError :=
  TypeError ("Cannot read properties of " +:+ type_name v +:+
             " (reading '" +:+ k +:+ "')").

(** Member access [v.k] for the identifiers the server reads: [query],
    [choices], [message], [content], [response], [text] and [replace].
    Reading a property of [undefined] or [null] throws a [TypeError].  An
    object has the properties it owns.  Arrays and strings have [length];
    no primitive, array or function inherits one of the names above from
    its prototype, but for [replace] on strings (see [call_replace]). *)
Definition getProp (v : jsval) (k : string) : completion jsval :=
  match v with
  | JUndefined | JNull => Throw (cannot_read v k)
  | JObj ps => Normal (default JUndefined (own_prop k ps))
  | JArr l =>
      if String.eqb k "length" then Normal (JNum (num_of_nat (List.length l)))
      else Normal JUndefined
  | JStr s =>
      if String.eqb k "length" then Normal (JNum (num_of_nat (String.length s)))
      else Normal JUndefined
  | _ => Normal JUndefined
  end.

(** Indexed access [v[i]]. *)
Definition getIndex (v : jsval) (i : nat) : completion jsval :=
  match v with
  | JUndefined | JNull => Throw (cannot_read v (pretty i))
  | JArr l => Normal (nth i l JUndefined)
  | JObj ps => Normal (default JUndefined (own_prop (pretty i) ps))
  | JStr s =>
      match String.get i s with
      | Some c => Normal (JStr (String c EmptyString))
      | None => Normal JUndefined
      end
  | _ => Normal JUndefined
  end.

(** Calling a value with no argument that matters: [f()]. *)
Definition call (callee : string) (f : jsval) : completion jsval :=
  match f with
  | JFun v => Normal v
  | JFunThrow e => Throw e
  | _ => Throw (TypeError (callee +:+ " is not a function"))
  end.

(** [s.replace(/\*/g, "")] on a string: every asterisk is dropped. *)
Fixpoint remove_asterisks (s : string) : string :=
  match s with
  | EmptyString => EmptyString
  | String c s' =>
      if Ascii.eqb c "*"%char then remove_asterisks s'
      else String c (remove_asterisks s')
  end.

(** [v.replace(/\*/g, "")] on any value. *)
Definition call_replace (callee : string) (v : jsval) : completion jsval :=
  match v with
  | JStr s => Normal (JStr (remove_asterisks s))
  | _ =>
      match getProp v "replace" with
      | Normal f => call (callee +:+ ".replace") f
      | Throw e => Throw e
      end
  end.


(* ===================================================================== *)
(** ** The world a request runs in *)
(* ===================================================================== *)

(** A file of the upload directory.  [locked] files are those the
    operating system refuses to delete (the directory is read-only, or the
    file is held open on a platform that forbids it). *)
Record FileNode : Type := mkFile {
  file_data : list Byte.byte;
  locked : bool
}.

(** [generateContent]'s argument: the model named by [getGenerativeModel],
    the inline data part and the instruction. *)
Record GeminiRequest : Type := mkGeminiRequest {
  gemini_model : string;
  mimeType : string;
  inline_data : string;
  instruction : string
}.

Record ChatMessage : Type := mkMessage {
  role : string;
  content : jsval
}.

(** [groq.chat.completions.create]'s argument. *)
Record GroqRequest : Type := mkGroqRequest {
  messages : list ChatMessage;
  model : string
}.

(** What [pdf-parse] resolves to; the server reads [text] only. *)
Record PdfData : Type := mkPdfData {
  numpages : nat;
  text : string
}.

Inductive loglevel : Type := LogInfo | LogError.

(** The effects a handler performs, in the order it performs them. *)
Inductive event : Type :=
| EvReadFile (p : string)
| EvUnlink (p : string)
| EvGenerateContent (req : GeminiRequest)
| EvChatCompletion (req : GroqRequest)
| EvPdfParse (buf : list Byte.byte)
| EvConsole (lvl : loglevel) (msg : string)
| EvStatus (code : Z)
| EvJson (body : jsval).

(** Express's [res]: the status code set so far, whether the response has
    gone out, and what went out: the status code and the value handed to
    [res.json].  That value is kept as the handler passed it; Express
    writes it with [JSON.stringify], which leaves a body made of strings
    as it is and is not carried out here. *)
Record Response : Type := mkRes {
  statusCode : Z;
  headersSent : bool;
  delivered : option (Z * jsval)
}.

Record World : Type := mkWorld {
  fs : gmap string FileNode;
  res : Response;
  trace : list event
}.

Definition fresh_res : Response := mkRes 200 false None.

(** The world at the start of a request: some file system, a response
    nothing was written to, no effect yet. *)
Definition start (files : gmap string FileNode) : World :=
  mkWorld files fresh_res [].

(* ===================================================================== *)
(** ** The monad of effects and exceptions *)
(* ===================================================================== *)

Definition M (A : Type) : Type := World -> completion A * World.

#[global] Instance M_ret : MRet M := fun A a w => (Normal a, w).

#[global] Instance M_bind : MBind M := fun A B f m w =>
  match m w with
  | (Normal a, w') => f a w'
  | (Throw e, w') => (Throw e, w')
  end.

(** Pure evaluations that may throw are sequenced the same way. *)
#[global] Instance completion_ret : MRet completion := fun A a => Normal a.

#[global] Instance completion_bind : MBind completion := fun A B f c =>
  match c with
  | Normal a => f a
  | Throw e => Throw e
  end.

Definition throw {A : Type} (e : JsError) : M A := fun w => (Throw e, w).

(** [if (b) stmt] without an [else]. *)
Definition when (b : bool) (stmt : M unit) : M unit :=
  if b then stmt else mret tt.

(** A pure evaluation that may throw. *)
Definition lift {A : Type} (c : completion A) : M A := fun w => (c, w).

(** [try { body } catch (error) { handler }]. *)
Definition try_catch {A : Type} (body : M A) (handler : JsError -> M A) : M A :=
  fun w =>
    match body w with
    | (Normal a, w') => (Normal a, w')
    | (Throw e, w') => handler e w'
    end.

(** Reading and updating the world. *)
Definition gets {A : Type} (f : World -> A) : M A := fun w => (Normal (f w), w).
Definition modify (f : World -> World) : M unit := fun w => (Normal tt, f w).

Definition set_fs (files : gmap string FileNode) (w : World) : World :=
  mkWorld files (res w) (trace w).
Definition set_res (r : Response) (w : World) : World :=
  mkWorld (fs w) r (trace w).

Definition emit (e : event) : M unit :=
  modify (fun w => mkWorld (fs w) (res w) (trace w ++ [e])).

Definition console_log (msg : string) : M unit := emit (EvConsole LogInfo msg).
Definition console_error (msg : string) : M unit := emit (EvConsole LogError msg).

(** [fs.readFileSync(p)]. *)
Definition readFileSync (p : string) : M (list Byte.byte) :=
  emit (EvReadFile p);;
  files ← gets fs;
  match files !! p with
  | Some f => mret (file_data f)
  | None => throw (Error_ ("ENOENT: no such file or directory, open '" +:+ p +:+ "'"))
  end.

(** [fs.unlinkSync(p)]. *)
Definition unlinkSync (p : string) : M unit :=
  emit (EvUnlink p);;
  files ← gets fs;
  match files !! p with
  | Some f =>
      if locked f
      then throw (Error_ ("EPERM: operation not permitted, unlink '" +:+ p +:+ "'"))
      else modify (set_fs (delete p files))
  | None => throw (Error_ ("ENOENT: no such file or directory, unlink '" +:+ p +:+ "'"))
  end.

(** [res.status(code)]. *)
Definition res_status (code : Z) : M unit :=
  emit (EvStatus code);;
  r ← gets res;
  modify (set_res (mkRes code (headersSent r) (delivered r))).

(** [res.json(body)]: sends [body] with the status code set so far,
    recorded here as the handler passed it.  Once a response has gone out
    Express throws instead of sending another. *)
Definition res_json (body : jsval) : M unit :=
  emit (EvJson body);;
  r ← gets res;
  if headersSent r
  then throw (Error_ "Cannot set headers after they are sent to the client")
  else modify (set_res (mkRes (statusCode r) true (Some (statusCode r, body)))).

(** [Buffer.toString("base64")]: the standard alphabet, padded with [=]. *)
Definition base64_alphabet : string :=
  "ABCDEFGHIJKLMNOPQRSTUVWXYZabcdefghijklmnopqrstuvwxyz0123456789+/".

Definition base64_digit (n : N) : ascii :=
  default "A"%char (String.get (N.to_nat (n mod 64)%N) base64_alphabet).

Fixpoint base64 (bytes : list Byte.byte) : string :=
  match bytes with
  | [] => ""
  | [a] =>
      let n := (Byte.to_N a * 65536)%N in
      String (base64_digit (n / 262144)) (String (base64_digit (n / 4096)) "==")
  | [a; b] =>
      let n := (Byte.to_N a * 65536 + Byte.to_N b * 256)%N in
      String (base64_digit (n / 262144)) (String (base64_digit (n / 4096))
        (String (base64_digit (n / 64)) "="))
  | a :: b :: c :: rest =>
      let n := (Byte.to_N a * 65536 + Byte.to_N b * 256 + Byte.to_N c)%N in
      String (base64_digit (n / 262144)) (String (base64_digit (n / 4096))
        (String (base64_digit (n / 64)) (String (base64_digit n) (base64 rest))))
  end.

(** [const { k } = v]: as member access, but [undefined] and [null] cannot
    be destructured. *)
Definition destructure (src : string) (v : jsval) (k : string) : completion jsval :=
  match v with
  | JUndefined | JNull =>
      Throw (TypeError ("Cannot destructure property '" +:+ k +:+ "' of '" +:+ src +:+
                        "' as it is " +:+ type_name v +:+ "."))
  | _ => getProp v k
  end.

(* ===================================================================== *)
(** ** Requests *)
(* ===================================================================== *)

(** [req.file] as multer's disk storage leaves it; the server reads [path]. *)
Record DiskFile : Type := mkDiskFile {
  path : string
}.

(** [req.file] as multer's memory storage leaves it; the server reads
    [buffer]. *)
Record MemoryFile : Type := mkMemoryFile {
  buffer : list Byte.byte
}.

(** A multipart request after [upload.single(field)]: [file] is [None]
    when the field carried no file ([req.file] is [undefined]). *)
Record UploadRequest (F : Type) : Type := mkUpload {
  file : option F
}.
Arguments mkUpload {F} file.
Arguments file {F} u.

(** A request after [express.json()]. *)
Record JsonRequest : Type := mkJsonRequest {
  body : jsval
}.

(* ===================================================================== *)
(** ** The server *)
(* ===================================================================== *)

Definition analysis_instruction : string :=
  "Analyze this contract for 3 high-risk clauses, 2-3 compliance issues, and suggest 2-3 alternatives.".

(** The text the comparison prompt appends to the document: two line feeds
    and the instruction. *)
Definition comparison_instruction : string :=
  String "010" (String "010"
    "Compare it with new Indian laws and highlight what are added or removed (changes).").

Definition groq_model : string := "llama-3.3-70b-versatile".

(** [chatCompletion.choices[0]?.message?.content] *)
Definition first_choice_content (chatCompletion : jsval) : completion jsval :=
  choices ← getProp chatCompletion "choices";
  choice ← getIndex choices 0;
  if nullish choice then Normal JUndefined else
  msg ← getProp choice "message";
  if nullish msg then Normal JUndefined else
  getProp msg "content".

Section Server.

(** [__dirname] and [path.join]. *)
Variable dirname : string.
Variable path_join : string -> string -> string.

(** The providers and the extractor: what each call resolves to or throws. *)
Variable generateContent : GeminiRequest -> completion jsval.
Variable chatCompletionsCreate : GroqRequest -> completion jsval.
Variable pdfParse : list Byte.byte -> completion PdfData.

Definition model_generateContent (req : GeminiRequest) : M jsval :=
  emit (EvGenerateContent req);;
  lift (generateContent req).

Definition groq_chat_completions_create (req : GroqRequest) : M jsval :=
  emit (EvChatCompletion req);;
  lift (chatCompletionsCreate req).

Definition await_pdfParse (buf : list Byte.byte) : M PdfData :=
  emit (EvPdfParse buf);;
  lift (pdfParse buf).

(** [!result || !result.response || !result.response.text] *)
Definition invalid_response (result : jsval) : completion bool :=
  if negb (truthy result) then Normal true else
  response ← getProp result "response";
  if negb (truthy response) then Normal true else
  response' ← getProp result "response";
  text ← getProp response' "text";
  Normal (negb (truthy text)).

(** The [try] block of [analyzeContractWithGemini], lines 30-58.
    [getGenerativeModel] only names the model of the request. *)
Definition analyzeContractWithGemini_try (filePath : string) : M jsval :=
  let model := "gemini-1.5-flash" in
  pdfBuffer ← readFileSync filePath;
  let base64Pdf := base64 pdfBuffer in
  console_log "🔹 Sending request to Gemini API...";;
  result ← model_generateContent
             (mkGeminiRequest model "application/pdf" base64Pdf analysis_instruction);
  console_log "✅ Response received from Gemini API:";;
  invalid ← lift (invalid_response result);
  when invalid (throw (Error_ "Invalid response from Gemini API"));;
  response ← lift (getProp result "response");
  text_fn ← lift (getProp response "text");
  textResponse ← lift (call "result.response.text" text_fn);
  textResponse ← lift (call_replace "textResponse" textResponse);
  mret textResponse.

(** [analyzeContractWithGemini], lines 28-63. *)
Definition analyzeContractWithGemini (filePath : string) : M jsval :=
  try_catch
    (analyzeContractWithGemini_try filePath)
    (fun error =>
       console_error "❌ Error analyzing contract:";;
       throw (Error_ ("Failed to analyze contract. Details: " +:+ message error))).

(** [getGroqChatCompletion], lines 66-80. *)
Definition getGroqChatCompletion (pdfContent : string) : M jsval :=
  let prompt := pdfContent +:+ comparison_instruction in
  try_catch
    (chatCompletion ← groq_chat_completions_create
                        (mkGroqRequest [mkMessage "user" (JStr prompt)] groq_model);
     c ← lift (first_choice_content chatCompletion);
     mret (js_or c (JStr "No response from Groq.")))
    (fun error =>
       console_error "❌ Groq API error:";;
       mret (JStr "Error processing text with Groq.")).

(** [getGroqChatCompletionForQuery], lines 83-94. *)
Definition getGroqChatCompletionForQuery (query : jsval) : M jsval :=
  try_catch
    (response ← groq_chat_completions_create
                  (mkGroqRequest [mkMessage "user" query] groq_model);
     c ← lift (first_choice_content response);
     mret (js_or c (JStr "No response")))
    (fun error =>
       console_error "❌ Groq API query error:";;
       mret (JStr "Error processing query with Groq.")).

(** [POST /analyzecontract], lines 99-113. *)
Definition analyzecontract (req : UploadRequest DiskFile) : M unit :=
  match file req with
  | None => res_status 400;; res_json (JObj [("error", JStr "No file uploaded")])
  | Some f =>
      let filePath := path_join dirname (path f) in
      try_catch
        (analysis ← analyzeContractWithGemini filePath;
         res_json (JObj [("analysis", analysis)]);;
         unlinkSync filePath)
        (fun error =>
           res_status 500;; res_json (JObj [("error", JStr (message error))]))
  end.

(** [POST /analyzepdf], lines 116-127. *)
Definition analyzepdf (req : UploadRequest MemoryFile) : M unit :=
  match file req with
  | None => res_status 400;; res_json (JObj [("error", JStr "PDF file is required.")])
  | Some f =>
      try_catch
        (pdfText ← await_pdfParse (buffer f);
         groqResponse ← getGroqChatCompletion (text pdfText);
         res_json (JObj [("pdfContent", JStr (text pdfText));
                         ("groqResponse", groqResponse)]))
        (fun error =>
           console_error "❌ Error processing PDF:";;
           res_status 500;; res_json (JObj [("error", JStr "Error analyzing the PDF.")]))
  end.

(** [POST /analyze], lines 130-141. *)
Definition analyze (req : JsonRequest) : M unit :=
  try_catch
    (query ← lift (destructure "req.body" (body req) "query");
     if negb (truthy query)
     then res_status 400;; res_json (JObj [("error", JStr "Query text is required.")])
     else
       analysis ← getGroqChatCompletionForQuery query;
       res_json (JObj [("analysis", analysis)]))
    (fun error =>
       console_error "❌ Error fetching AI analysis:";;
       res_status 500;; res_json (JObj [("error", JStr "Failed to fetch AI insights")])).

End Server.

(* ===================================================================== *)
(** ** Observations on a finished request *)
(* ===================================================================== *)

(** The calls made to the two AI providers. *)
Definition provider_call (e : event) : bool :=
  match e with
  | EvGenerateContent _ => true
  | EvChatCompletion _ => true
  | _ => false
  end.

Definition provider_calls (tr : list event) : list event :=
  List.filter provider_call tr.

(** The chat-completion requests issued, in order. *)
Fixpoint chat_requests (tr : list event) : list GroqRequest :=
  match tr with
  | [] => []
  | EvChatCompletion req :: tr' => req :: chat_requests tr'
  | _ :: tr' => chat_requests tr'
  end.

(** How many times [unlinkSync p] was called. *)
Fixpoint unlink_count (p : string) (tr : list event) : nat :=
  match tr with
  | [] => 0%nat
  | EvUnlink q :: tr' =>
      if String.eqb p q then S (unlink_count p tr') else unlink_count p tr'
  | _ :: tr' => unlink_count p tr'
  end.

Definition is_string (v : jsval) : bool :=
  match v with
  | JStr _ => true
  | _ => false
  end.

Definition string_or_null (v : jsval) : bool :=
  match v with
  | JStr _ => true
  | JNull => true
  | _ => false
  end.

(** The shape the Groq SDK declares for a chat completion: an object whose
    [choices] is an array of objects, each with a [message] object whose
    [content] is a string or [null]. *)
Definition well_typed_choice (c : jsval) : bool :=
  match c with
  | JObj ps =>
      match own_prop "message" ps with
      | Some (JObj ms) =>
          match own_prop "content" ms with
          | Some v => string_or_null v
          | None => false
          end
      | _ => false
      end
  | _ => false
  end.

Definition well_typed_chat_completion (v : jsval) : bool :=
  match v with
  | JObj ps =>
      match own_prop "choices" ps with
      | Some (JArr cs) => forallb well_typed_choice cs
      | _ => false
      end
  | _ => false
  end.

(** No asterisk occurs in [s]. *)
Fixpoint asterisk_free (s : string) : bool :=
  match s with
  | EmptyString => true
  | String c s' => negb (Ascii.eqb c "*"%char) && asterisk_free s'
  end.

(** The files read by [readFileSync], in order. *)
Fixpoint file_reads (tr : list event) : list string :=
  match tr with
  | [] => []
  | EvReadFile p :: tr' => p :: file_reads tr'
  | _ :: tr' => file_reads tr'
  end.

(** The calls that reach the file system. *)
Definition fs_event (e : event) : bool :=
  match e with
  | EvReadFile _ => true
  | EvUnlink _ => true
  | _ => false
  end.

Definition is_function (v : jsval) : bool :=
  match v with
  | JFun _ => true
  | JFunThrow _ => true
  | _ => false
  end.


(* ===================================================================== *)
(** ** Sample collaborators and requests *)
(* ===================================================================== *)

Module Sample.

Definition dirname : string := "/srv/app".

(** [path.join] on POSIX operands that are already normalized. *)
Definition path_join (a b : string) : string := a +:+ "/" +:+ b.

Definition upload : DiskFile := mkDiskFile "uploads/3f2a9c".
Definition filePath : string := "/srv/app/uploads/3f2a9c".
Definition pdf_bytes : list Byte.byte :=
  [Byte.x25; Byte.x50; Byte.x44; Byte.x46; Byte.x2d].

Definition files : gmap string FileNode := {[ filePath := mkFile pdf_bytes false ]}.
Definition files_locked : gmap string FileNode := {[ filePath := mkFile pdf_bytes true ]}.

(** A Gemini result whose [response.text()] returns [t]. *)
Definition gemini_result (t : string) : jsval :=
  JObj [("response", JObj [("text", JFun (JStr t))])].

Definition gemini_ok (_ : GeminiRequest) : completion jsval :=
  Normal (gemini_result "*Risk* clause 4 is **one-sided**").
Definition gemini_down (_ : GeminiRequest) : completion jsval :=
  Throw (Error_ "fetch failed").
Definition gemini_no_response (_ : GeminiRequest) : completion jsval :=
  Normal (JObj []).

(** A Groq chat completion with the given message contents. *)
Definition choice (c : jsval) : jsval :=
  JObj [("index", JNum (S754_zero false));
        ("message", JObj [("role", JStr "assistant"); ("content", c)])].
Definition chat_completion (cs : list jsval) : jsval :=
  JObj [("id", JStr "chatcmpl-1"); ("choices", JArr (List.map choice cs))].

Definition groq_ok (_ : GroqRequest) : completion jsval :=
  Normal (chat_completion [JStr "Section 4 was added."]).
Definition groq_no_choices (_ : GroqRequest) : completion jsval :=
  Normal (chat_completion []).
Definition groq_down (_ : GroqRequest) : completion jsval :=
  Throw (Error_ "Connection error.").

Definition pdf_ok (_ : list Byte.byte) : completion PdfData :=
  Normal (mkPdfData 1 "Clause 1. The tenant pays.").
Definition memory_upload : MemoryFile := mkMemoryFile pdf_bytes.
Definition question : jsval := JStr "define force majeure".

(** A Gemini result whose [response.text] is a string, not a function, and
    one whose [response.text()] throws (a blocked prompt). *)
Definition gemini_text_not_callable (_ : GeminiRequest) : completion jsval :=
  Normal (JObj [("response", JObj [("text", JStr "Risk")])]).
Definition gemini_blocked (_ : GeminiRequest) : completion jsval :=
  Normal (JObj [("response",
                 JObj [("text", JFunThrow (Error_ "Text not available. Response was blocked due to SAFETY"))])]).
Definition gemini_plain (_ : GeminiRequest) : completion jsval :=
  Normal (gemini_result "Clause 4 is one-sided.").

(** Groq answers: a first choice without content before one with content,
    and an error payload without [choices]. *)
Definition groq_empty_first (_ : GroqRequest) : completion jsval :=
  Normal (chat_completion [JStr ""; JStr "Section 4 was added."]).
Definition groq_no_choices_field (_ : GroqRequest) : completion jsval :=
  Normal (JObj [("error", JObj [("message", JStr "rate limit")])]).

Definition pdf_unreadable (_ : list Byte.byte) : completion PdfData :=
  Throw (Error_ "Invalid PDF structure").

Definition other_file : string := "/srv/app/uploads/77aa01".
Definition two_files : gmap string FileNode :=
  <[ other_file := mkFile [Byte.x25] false ]> files.

End Sample.

(* ===================================================================== *)
(** ** Properties *)
(* ===================================================================== *)

(** The world after more effects were recorded. *)
Definition logged (w : World) (evs : list event) : World :=
  mkWorld (fs w) (res w) (trace w ++ evs).

(** Lines 49-58 as one pure evaluation: what the adapter makes of the
    provider's [result]. *)
Definition response_text (result : jsval) : completion jsval :=
  invalid ← invalid_response result;
  if (invalid : bool)
  then @Throw jsval (Error_ "Invalid response from Gemini API")
  else
    response ← getProp result "response";
    text_fn ← getProp response "text";
    textResponse ← call "result.response.text" text_fn;
    call_replace "textResponse" textResponse.

(** The request [analyzeContractWithGemini] sends for a file's bytes. *)
Definition contract_request (bytes : list Byte.byte) : GeminiRequest :=
  mkGeminiRequest "gemini-1.5-flash" "application/pdf" (base64 bytes)
                  analysis_instruction.

(** The requests the two Groq adapters send. *)
Definition comparison_request (pdfContent : string) : GroqRequest :=
  mkGroqRequest [mkMessage "user" (JStr (pdfContent +:+ comparison_instruction))]
                "llama-3.3-70b-versatile".

Definition query_request (query : jsval) : GroqRequest :=
  mkGroqRequest [mkMessage "user" query] "llama-3.3-70b-versatile".

(** What a Groq adapter returns for a provider outcome: the first choice's
    content when it is truthy, [fallback] when it is not, [failure] when
    the call or the reading of the response threw. *)
Definition adapter_value (fallback failure : string) (outcome : completion jsval) : jsval :=
  match outcome ≫= first_choice_content with
  | Normal c => js_or c (JStr fallback)
  | Throw _ => JStr failure
  end.

Definition headers_sent : JsError :=
  Error_ "Cannot set headers after they are sent to the client".

Definition unlink_error (code p : string) : JsError :=
  Error_ (code +:+ ", unlink '" +:+ p +:+ "'").

Definition wrapped (e : JsError) : JsError :=
  Error_ ("Failed to analyze contract. Details: " +:+ message e).

Lemma chat_requests_app (tr1 tr2 : list event) :
  chat_requests (tr1 ++ tr2) = (chat_requests tr1 ++ chat_requests tr2)%list.
Proof.
  induction tr1 as [|e tr1 IH]; simpl; [reflexivity|].
  destruct e; simpl; rewrite IH; reflexivity.
Qed.

Lemma provider_calls_app (tr1 tr2 : list event) :
  provider_calls (tr1 ++ tr2) = (provider_calls tr1 ++ provider_calls tr2)%list.
Proof. unfold provider_calls. apply List.filter_app. Qed.

Lemma unlink_count_app (p : string) (tr1 tr2 : list event) :
  unlink_count p (tr1 ++ tr2) = (unlink_count p tr1 + unlink_count p tr2)%nat.
Proof.
  induction tr1 as [|e tr1 IH]; simpl; [reflexivity|].
  destruct e; simpl; try apply IH.
  destruct (String.eqb p p0); simpl; rewrite IH; reflexivity.
Qed.

Lemma remove_asterisks_free (s : string) :
  asterisk_free (remove_asterisks s) = true.
Proof.
  induction s as [|c s IH]; simpl; [reflexivity|].
  destruct (Ascii.eqb c "*"%char) eqn:E; simpl; [assumption|].
  rewrite E. simpl. assumption.
Qed.

Lemma remove_asterisks_filter (s : string) :
  list_ascii_of_string (remove_asterisks s) =
  List.filter (fun c => negb (Ascii.eqb c "*"%char)) (list_ascii_of_string s).
Proof.
  induction s as [|c s IH]; simpl; [reflexivity|].
  destruct (Ascii.eqb c "*"%char); simpl; rewrite IH; reflexivity.
Qed.

(** Unfolding the monad and the primitives. *)
Ltac run :=
  cbv [mbind mret M_bind M_ret completion_bind completion_ret
       try_catch throw lift when gets modify emit set_fs set_res
       console_log console_error res_status res_json readFileSync unlinkSync
       logged start fresh_res];
  cbn [fs res trace statusCode headersSent delivered fst snd].

(** Projections of the worlds built on the way, and the trace as one list. *)
Ltac tidy :=
  cbn [fs res trace statusCode headersSent delivered fst snd];
  rewrite <- ?List.app_assoc; cbn [List.app].

Section Properties.

Variable dirname : string.
Variable path_join : string -> string -> string.
Variable generateContent : GeminiRequest -> completion jsval.
Variable chatCompletionsCreate : GroqRequest -> completion jsval.
Variable pdfParse : list Byte.byte -> completion PdfData.

(** What the two Groq adapters do, in one equation each. *)
Lemma getGroqChatCompletion_run (pdfContent : string) (w : World) :
  let req := mkGroqRequest
               [mkMessage "user" (JStr (pdfContent +:+ comparison_instruction))]
               groq_model in
  getGroqChatCompletion chatCompletionsCreate pdfContent w =
  match chatCompletionsCreate req ≫= first_choice_content with
  | Normal c =>
      (Normal (js_or c (JStr "No response from Groq.")),
       logged w [EvChatCompletion req])
  | Throw _ =>
      (Normal (JStr "Error processing text with Groq."),
       logged w [EvChatCompletion req; EvConsole LogError "❌ Groq API error:"])
  end.
Proof.
  intros req. unfold getGroqChatCompletion, groq_chat_completions_create.
  fold req. run.
  destruct (chatCompletionsCreate req) as [r|e]; [|tidy; reflexivity].
  destruct (first_choice_content r) as [c|e]; tidy; reflexivity.
Qed.

Lemma getGroqChatCompletionForQuery_run (query : jsval) (w : World) :
  let req := mkGroqRequest [mkMessage "user" query] groq_model in
  getGroqChatCompletionForQuery chatCompletionsCreate query w =
  match chatCompletionsCreate req ≫= first_choice_content with
  | Normal c =>
      (Normal (js_or c (JStr "No response")), logged w [EvChatCompletion req])
  | Throw _ =>
      (Normal (JStr "Error processing query with Groq."),
       logged w [EvChatCompletion req; EvConsole LogError "❌ Groq API query error:"])
  end.
Proof.
  intros req. unfold getGroqChatCompletionForQuery, groq_chat_completions_create.
  fold req. run.
  destruct (chatCompletionsCreate req) as [r|e]; [|tidy; reflexivity].
  destruct (first_choice_content r) as [c|e]; tidy; reflexivity.
Qed.

(** The [try] block of the Gemini adapter, in one equation. *)
Lemma analyzeContractWithGemini_try_run (filePath : string) (w : World) :
  analyzeContractWithGemini_try generateContent filePath w =
  match fs w !! filePath with
  | None =>
      (Throw (Error_ ("ENOENT: no such file or directory, open '" +:+ filePath +:+ "'")),
       logged w [EvReadFile filePath])
  | Some node =>
      let req := contract_request (file_data node) in
      match generateContent req with
      | Throw e =>
          (Throw e,
           logged w [EvReadFile filePath;
                     EvConsole LogInfo "🔹 Sending request to Gemini API...";
                     EvGenerateContent req])
      | Normal result =>
          (response_text result,
           logged w [EvReadFile filePath;
                     EvConsole LogInfo "🔹 Sending request to Gemini API...";
                     EvGenerateContent req;
                     EvConsole LogInfo "✅ Response received from Gemini API:"])
      end
  end.
Proof.
  unfold analyzeContractWithGemini_try, model_generateContent, response_text.
  run. destruct (fs w !! filePath) as [node|]; [|reflexivity].
  tidy. fold (contract_request (file_data node)).
  destruct (generateContent (contract_request (file_data node))) as [result|e];
    [|tidy; reflexivity].
  tidy. destruct (invalid_response result) as [[|]|e]; [reflexivity| |reflexivity].
  destruct (getProp result "response") as [response|e]; [|reflexivity].
  destruct (getProp response "text") as [text_fn|e]; [|reflexivity].
  destruct (call "result.response.text" text_fn) as [t|e]; [|reflexivity].
  destruct (call_replace "textResponse" t); reflexivity.
Qed.

(** The adapter returns what its [try] block returns and wraps what it
    throws. *)
Lemma analyzeContractWithGemini_run (filePath : string) (w : World) :
  analyzeContractWithGemini generateContent filePath w =
  match analyzeContractWithGemini_try generateContent filePath w with
  | (Normal v, w') => (Normal v, w')
  | (Throw e, w') =>
      (Throw (wrapped e), logged w' [EvConsole LogError "❌ Error analyzing contract:"])
  end.
Proof.
  unfold analyzeContractWithGemini. run.
  destruct (analyzeContractWithGemini_try generateContent filePath w) as [[v|e] w'];
    reflexivity.
Qed.

(** The adapter neither touches the file system nor the response. *)
Lemma analyzeContractWithGemini_frame (filePath : string) (w : World) :
  let w' := snd (analyzeContractWithGemini generateContent filePath w) in
  fs w' = fs w /\ res w' = res w /\
  exists evs, trace w' = (trace w ++ evs)%list /\ unlink_count filePath evs = 0%nat.
Proof.
  rewrite analyzeContractWithGemini_run, analyzeContractWithGemini_try_run.
  destruct (fs w !! filePath) as [node|].
  - cbv zeta. destruct (generateContent _) as [result|e].
    + destruct (response_text result); cbn; (split; [reflexivity|split; [reflexivity|]]);
        eexists; (split; [tidy; reflexivity|reflexivity]).
    + cbn. split; [reflexivity|split; [reflexivity|]].
      eexists; (split; [tidy; reflexivity|reflexivity]).
  - cbn. split; [reflexivity|split; [reflexivity|]].
    eexists; (split; [tidy; reflexivity|reflexivity]).
Qed.

(** [/analyzecontract] on a request that carries a file, case by case:
    the adapter throws; the adapter returns and the file is deleted; the
    adapter returns and the deletion throws. *)
Lemma analyzecontract_run (f : DiskFile) (files : gmap string FileNode) :
  let filePath := path_join dirname (path f) in
  analyzecontract dirname path_join generateContent (mkUpload (Some f)) (start files) =
  match analyzeContractWithGemini generateContent filePath (start files) with
  | (Throw e, w1) =>
      let body := JObj [("error", JStr (message e))] in
      (Normal tt,
       mkWorld files (mkRes 500 true (Some (500, body)))
               (trace w1 ++ [EvStatus 500; EvJson body]))
  | (Normal analysis, w1) =>
      let body := JObj [("analysis", analysis)] in
      let failed (e : JsError) :=
        let body' := JObj [("error", JStr (message e))] in
        (Throw headers_sent,
         mkWorld files (mkRes 500 true (Some (200, body)))
                 (trace w1 ++ [EvJson body; EvUnlink filePath; EvStatus 500; EvJson body'])) in
      match files !! filePath with
      | Some node =>
          if locked node
          then failed (unlink_error "EPERM: operation not permitted" filePath)
          else (Normal tt,
                mkWorld (delete filePath files) (mkRes 200 true (Some (200, body)))
                        (trace w1 ++ [EvJson body; EvUnlink filePath]))
      | None => failed (unlink_error "ENOENT: no such file or directory" filePath)
      end
  end.
Proof.
  intros filePath. unfold analyzecontract. cbn [file path]. fold filePath.
  pose proof (analyzeContractWithGemini_frame filePath (start files)) as Hframe.
  set (w0 := start files) in *. run.
  destruct (analyzeContractWithGemini generateContent filePath w0)
    as [[analysis|e] w1]; cbn [snd] in Hframe;
    destruct Hframe as (Hfs & Hres & _); subst w0; cbn [fs res start] in Hfs, Hres.
  - tidy. rewrite Hres, Hfs. cbn [headersSent statusCode fresh_res]. tidy.
    destruct (files !! filePath) as [node|].
    + destruct (locked node); tidy; reflexivity.
    + tidy. reflexivity.
  - tidy. rewrite Hres, Hfs. reflexivity.
Qed.

(** Only a truthy value has a truthy member. *)
Lemma truthy_member (v r : jsval) (k : string) :
  getProp v k = Normal r -> truthy r = true -> truthy v = true.
Proof.
  destruct v as [| |b|n|s|l|ps|ret|e]; cbn; try congruence; try reflexivity.
  - intros H; inversion H; subst; discriminate.
  - intros H; inversion H; subst; discriminate.
  - destruct s; [|reflexivity].
    destruct (String.eqb k "length"); intros H; inversion H; subst; discriminate.
Qed.

(** The success path of the Gemini adapter. *)
Lemma response_text_ok (result response : jsval) (t : string) :
  getProp result "response" = Normal response ->
  truthy response = true ->
  getProp response "text" = Normal (JFun (JStr t)) ->
  response_text result = Normal (JStr (remove_asterisks t)).
Proof.
  intros Hresp Htruthy Htext.
  pose proof (truthy_member _ _ _ Hresp Htruthy) as Hresult.
  unfold response_text, invalid_response.
  rewrite Hresult. cbn [negb]. cbv [mbind completion_bind].
  rewrite Hresp, Htruthy. cbn [negb]. rewrite Htext. reflexivity.
Qed.

(** A malformed result is refused. *)
Lemma response_text_invalid (result : jsval) :
  (result = JUndefined \/ result = JNull \/
   (exists ps, result = JObj ps /\ own_prop "response" ps = None) \/
   (exists ps rs, result = JObj ps /\ own_prop "response" ps = Some (JObj rs) /\
                  own_prop "text" rs = None)) ->
  response_text result = Throw (Error_ "Invalid response from Gemini API").
Proof.
  intros [->|[->|[(ps & -> & Hps)|(ps & rs & -> & Hps & Hrs)]]];
    try reflexivity; unfold response_text, invalid_response;
    cbn [truthy negb getProp]; cbv [mbind completion_bind]; rewrite Hps; cbn.
  - reflexivity.
  - rewrite Hrs. reflexivity.
Qed.

(** On the success path the staged file is deleted, by one call. *)
Lemma analyzecontract_success_deletes_once
      (f : DiskFile) (files : gmap string FileNode) (node : FileNode)
      (analysis : jsval) (w1 : World) :
  let filePath := path_join dirname (path f) in
  files !! filePath = Some node ->
  locked node = false ->
  analyzeContractWithGemini generateContent filePath (start files) = (Normal analysis, w1) ->
  let out := analyzecontract dirname path_join generateContent
                             (mkUpload (Some f)) (start files) in
  fst out = Normal tt /\
  delivered (res (snd out)) = Some (200, JObj [("analysis", analysis)]) /\
  fs (snd out) !! filePath = None /\
  unlink_count filePath (trace (snd out)) = 1%nat.
Proof.
  intros filePath Hnode Hlocked Hrun out. subst out.
  pose proof (analyzeContractWithGemini_frame filePath (start files)) as Hframe.
  rewrite analyzecontract_run. fold filePath. rewrite Hrun in *.
  cbv zeta. rewrite Hnode, Hlocked. cbn [fst snd fs res trace delivered] in *.
  destruct Hframe as (_ & _ & evs & Htr & Hcount). cbn [start trace] in Htr.
  repeat split.
  - apply lookup_delete_eq.
  - rewrite Htr. cbn [List.app]. rewrite unlink_count_app, Hcount.
    cbn. rewrite String.eqb_refl. reflexivity.
Qed.

(** C1 (not met by the code): [/analyzecontract] is to delete the staged
    file on the failure path as on the success path.  When the provider
    call throws, the handler answers 500 and returns without a single call
    of [unlinkSync]: the staged file is still in the upload directory at
    the end of the request. *)
Theorem analyzecontract_provider_error_leaves_file
        (f : DiskFile) (files : gmap string FileNode) (node : FileNode) (e : JsError) :
  let filePath := path_join dirname (path f) in
  files !! filePath = Some node ->
  generateContent (contract_request (file_data node)) = Throw e ->
  let out := analyzecontract dirname path_join generateContent
                             (mkUpload (Some f)) (start files) in
  fst out = Normal tt /\
  delivered (res (snd out)) =
    Some (500, JObj [("error", JStr ("Failed to analyze contract. Details: " +:+ message e))]) /\
  unlink_count filePath (trace (snd out)) = 0%nat /\
  fs (snd out) !! filePath = Some node.
Proof.
  intros filePath Hnode Hthrow out. subst out.
  rewrite analyzecontract_run. fold filePath.
  rewrite analyzeContractWithGemini_run, analyzeContractWithGemini_try_run.
  cbn [start fs]. rewrite Hnode. cbv zeta. rewrite Hthrow.
  cbn. repeat split; try reflexivity. assumption.
Qed.

(** C4: in the document-analysis adapter a missing or malformed provider
    response (no result, no response object, no text accessor) raises
    "Invalid response from Gemini API"; whatever error [e] the adapter's
    [try] block raises, the adapter raises a new error whose message is
    "Failed to analyze contract. Details: " followed by [e]'s message; and
    [/analyzecontract] answers it with HTTP 500 and that message as the
    [error] field. *)
Theorem analysis_failure_wrapped_and_answered_500 :
  (forall (filePath : string) (w : World) (node : FileNode) (result : jsval),
     fs w !! filePath = Some node ->
     generateContent (contract_request (file_data node)) = Normal result ->
     (result = JUndefined \/ result = JNull \/
      (exists ps, result = JObj ps /\ own_prop "response" ps = None) \/
      (exists ps rs, result = JObj ps /\ own_prop "response" ps = Some (JObj rs) /\
                     own_prop "text" rs = None)) ->
     fst (analyzeContractWithGemini_try generateContent filePath w) =
       Throw (Error_ "Invalid response from Gemini API")) /\
  (forall (filePath : string) (w : World),
     fst (analyzeContractWithGemini generateContent filePath w) =
     match fst (analyzeContractWithGemini_try generateContent filePath w) with
     | Normal v => Normal v
     | Throw e => Throw (Error_ ("Failed to analyze contract. Details: " +:+ message e))
     end) /\
  (forall (f : DiskFile) (files : gmap string FileNode) (e : JsError),
     fst (analyzeContractWithGemini_try generateContent
            (path_join dirname (path f)) (start files)) = Throw e ->
     let out := analyzecontract dirname path_join generateContent
                                (mkUpload (Some f)) (start files) in
     fst out = Normal tt /\
     delivered (res (snd out)) =
       Some (500, JObj [("error",
                         JStr ("Failed to analyze contract. Details: " +:+ message e))])).
Proof.
  split; [|split].
  - intros filePath w node result Hnode Hgen Hbad.
    rewrite analyzeContractWithGemini_try_run, Hnode. cbv zeta. rewrite Hgen.
    cbn [fst]. apply response_text_invalid. assumption.
  - intros filePath w. rewrite analyzeContractWithGemini_run.
    destruct (analyzeContractWithGemini_try generateContent filePath w) as [[v|e] w'];
      reflexivity.
  - intros f files e Htry out. subst out.
    rewrite analyzecontract_run, analyzeContractWithGemini_run.
    destruct (analyzeContractWithGemini_try generateContent
                (path_join dirname (path f)) (start files)) as [[v|e'] w'];
      cbn [fst] in Htry; [discriminate|].
    inversion Htry; subst e'. cbn. split; reflexivity.
Qed.

(** C6: on the success path of the document-analysis adapter, where the
    provider's [response.text()] returns the text [t], the adapter returns
    [t] with every asterisk dropped and every other character kept in
    place: the returned analysis contains no asterisk, and "*Risk*" comes
    back as "Risk". *)
Theorem analysis_text_has_no_asterisk
        (filePath : string) (w : World) (node : FileNode)
        (result response : jsval) (t : string) :
  fs w !! filePath = Some node ->
  generateContent (contract_request (file_data node)) = Normal result ->
  getProp result "response" = Normal response ->
  truthy response = true ->
  getProp response "text" = Normal (JFun (JStr t)) ->
  fst (analyzeContractWithGemini generateContent filePath w) =
    Normal (JStr (remove_asterisks t)) /\
  asterisk_free (remove_asterisks t) = true /\
  list_ascii_of_string (remove_asterisks t) =
    List.filter (fun c => negb (Ascii.eqb c "*"%char)) (list_ascii_of_string t) /\
  remove_asterisks "*Risk*" = "Risk".
Proof.
  intros Hnode Hgen Hresp Htruthy Htext.
  split; [|split; [apply remove_asterisks_free|split;
                   [apply remove_asterisks_filter|reflexivity]]].
  rewrite analyzeContractWithGemini_run, analyzeContractWithGemini_try_run, Hnode.
  cbv zeta. rewrite Hgen.
  rewrite (response_text_ok _ _ _ Hresp Htruthy Htext). reflexivity.
Qed.

(** C9: in [/analyzecontract] the deletion sits in the [try] block after
    [res.json({ analysis })].  When the adapter has returned and
    [unlinkSync] throws [e], the 200 response has already gone out, control
    reaches the [catch] branch, and the handler calls [res.status(500)] and
    [res.json({ error: e.message })] on the response that was sent. *)
Theorem unlink_failure_reaches_catch_after_200
        (f : DiskFile) (files : gmap string FileNode)
        (analysis : jsval) (w1 : World) (e : JsError) :
  let filePath := path_join dirname (path f) in
  analyzeContractWithGemini generateContent filePath (start files) = (Normal analysis, w1) ->
  fst (unlinkSync filePath (start files)) = Throw e ->
  let out := analyzecontract dirname path_join generateContent
                             (mkUpload (Some f)) (start files) in
  trace (snd out) =
    (trace w1 ++ [EvJson (JObj [("analysis", analysis)]);
                  EvUnlink filePath;
                  EvStatus 500;
                  EvJson (JObj [("error", JStr (message e))])])%list /\
  delivered (res (snd out)) = Some (200, JObj [("analysis", analysis)]) /\
  fst out = Throw (Error_ "Cannot set headers after they are sent to the client").
Proof.
  intros filePath Hrun Hunlink out. subst out.
  rewrite analyzecontract_run. fold filePath. rewrite Hrun. cbv zeta.
  revert Hunlink. unfold unlinkSync. run.
  destruct (files !! filePath) as [node|].
  - destruct (locked node); cbn [fst]; intros H; [|discriminate].
    inversion H; subst e. cbn. repeat split; reflexivity.
  - cbn [fst]. intros H. inversion H; subst e. cbn. repeat split; reflexivity.
Qed.

Lemma getGroqChatCompletion_value (pdfContent : string) (w : World) :
  fst (getGroqChatCompletion chatCompletionsCreate pdfContent w) =
  Normal (adapter_value "No response from Groq." "Error processing text with Groq."
            (chatCompletionsCreate (comparison_request pdfContent))).
Proof.
  rewrite getGroqChatCompletion_run. cbv zeta. unfold adapter_value, comparison_request.
  fold groq_model.
  destruct (_ ≫= first_choice_content); reflexivity.
Qed.

Lemma getGroqChatCompletionForQuery_value (query : jsval) (w : World) :
  fst (getGroqChatCompletionForQuery chatCompletionsCreate query w) =
  Normal (adapter_value "No response" "Error processing query with Groq."
            (chatCompletionsCreate (query_request query))).
Proof.
  rewrite getGroqChatCompletionForQuery_run. cbv zeta. unfold adapter_value, query_request.
  fold groq_model.
  destruct (_ ≫= first_choice_content); reflexivity.
Qed.

(** Both adapters leave the file system and the response alone and issue
    one chat-completion request. *)
Lemma getGroqChatCompletion_world (pdfContent : string) (w : World) :
  let w' := snd (getGroqChatCompletion chatCompletionsCreate pdfContent w) in
  fs w' = fs w /\ res w' = res w /\
  exists evs, trace w' = (trace w ++ evs)%list /\
              chat_requests evs = [comparison_request pdfContent] /\
              provider_calls evs = [EvChatCompletion (comparison_request pdfContent)].
Proof.
  rewrite getGroqChatCompletion_run. cbv zeta. fold (comparison_request pdfContent).
  destruct (_ ≫= first_choice_content); cbn [snd logged fs res trace];
    (split; [reflexivity|split; [reflexivity|]]); eexists;
    (split; [reflexivity|split; reflexivity]).
Qed.

Lemma getGroqChatCompletionForQuery_world (query : jsval) (w : World) :
  let w' := snd (getGroqChatCompletionForQuery chatCompletionsCreate query w) in
  fs w' = fs w /\ res w' = res w /\
  exists evs, trace w' = (trace w ++ evs)%list /\
              chat_requests evs = [query_request query] /\
              provider_calls evs = [EvChatCompletion (query_request query)].
Proof.
  rewrite getGroqChatCompletionForQuery_run. cbv zeta. fold (query_request query).
  destruct (_ ≫= first_choice_content); cbn [snd logged fs res trace];
    (split; [reflexivity|split; [reflexivity|]]); eexists;
    (split; [reflexivity|split; reflexivity]).
Qed.

(** [/analyzepdf] on a request that carries a file. *)
Lemma analyzepdf_run (f : MemoryFile) (files : gmap string FileNode) :
  analyzepdf chatCompletionsCreate pdfParse (mkUpload (Some f)) (start files) =
  match pdfParse (buffer f) with
  | Throw _ =>
      let body := JObj [("error", JStr "Error analyzing the PDF.")] in
      (Normal tt,
       mkWorld files (mkRes 500 true (Some (500, body)))
               [EvPdfParse (buffer f); EvConsole LogError "❌ Error processing PDF:";
                EvStatus 500; EvJson body])
  | Normal pdfText =>
      let w1 := snd (getGroqChatCompletion chatCompletionsCreate (text pdfText)
                       (logged (start files) [EvPdfParse (buffer f)])) in
      let body :=
        JObj [("pdfContent", JStr (text pdfText));
              ("groqResponse",
               adapter_value "No response from Groq." "Error processing text with Groq."
                 (chatCompletionsCreate (comparison_request (text pdfText))))] in
      (Normal tt,
       mkWorld files (mkRes 200 true (Some (200, body))) (trace w1 ++ [EvJson body]))
  end.
Proof.
  unfold analyzepdf, await_pdfParse. cbn [file]. run.
  destruct (pdfParse (buffer f)) as [pdfText|e]; [|reflexivity].
  cbn [List.app].
  pose proof (getGroqChatCompletion_value (text pdfText)
                (mkWorld files (mkRes 200 false None) [EvPdfParse (buffer f)])) as Hv.
  pose proof (getGroqChatCompletion_world (text pdfText)
                (mkWorld files (mkRes 200 false None) [EvPdfParse (buffer f)])) as Hw.
  cbv zeta in Hw.
  destruct (getGroqChatCompletion chatCompletionsCreate (text pdfText) _) as [c w1].
  cbn [fst snd fs res] in Hv, Hw. destruct Hw as (Hfs & Hres & _). subst c.
  tidy. rewrite Hres, Hfs. reflexivity.
Qed.

(** [/analyze], case by case: the body cannot be destructured; the query
    is falsy; the query is truthy. *)
Lemma analyze_run (b : jsval) (files : gmap string FileNode) :
  analyze chatCompletionsCreate (mkJsonRequest b) (start files) =
  match destructure "req.body" b "query" with
  | Throw _ =>
      let body := JObj [("error", JStr "Failed to fetch AI insights")] in
      (Normal tt,
       mkWorld files (mkRes 500 true (Some (500, body)))
               [EvConsole LogError "❌ Error fetching AI analysis:";
                EvStatus 500; EvJson body])
  | Normal query =>
      if truthy query
      then
        let w1 := snd (getGroqChatCompletionForQuery chatCompletionsCreate query
                         (start files)) in
        let body :=
          JObj [("analysis",
                 adapter_value "No response" "Error processing query with Groq."
                   (chatCompletionsCreate (query_request query)))] in
        (Normal tt,
         mkWorld files (mkRes 200 true (Some (200, body))) (trace w1 ++ [EvJson body]))
      else
        let body := JObj [("error", JStr "Query text is required.")] in
        (Normal tt,
         mkWorld files (mkRes 400 true (Some (400, body))) [EvStatus 400; EvJson body])
  end.
Proof.
  unfold analyze. cbn [body].
  pose proof (getGroqChatCompletionForQuery_value) as Hv.
  pose proof (getGroqChatCompletionForQuery_world) as Hw.
  set (w0 := start files) in *. run.
  destruct (destructure "req.body" b "query") as [query|e]; [|subst w0; reflexivity].
  destruct (truthy query); cbn [negb]; [|subst w0; reflexivity].
  specialize (Hv query w0). specialize (Hw query w0). cbv zeta in Hw.
  destruct (getGroqChatCompletionForQuery chatCompletionsCreate query w0) as [c w1].
  cbn [fst snd] in Hv, Hw. destruct Hw as (Hfs & Hres & _). subst c w0.
  cbn [start fs res] in Hfs, Hres.
  tidy. rewrite Hres, Hfs. reflexivity.
Qed.

(** The first choice's content of a well-typed chat completion is a
    string, [null], or (no choice at all) [undefined]. *)
Lemma first_choice_content_well_typed (r : jsval) :
  well_typed_chat_completion r = true ->
  exists c, first_choice_content r = Normal c /\
            (c = JUndefined \/ string_or_null c = true).
Proof.
  destruct r as [| |b|n|s|l|ps|ret|e]; cbn; try discriminate.
  unfold first_choice_content. cbv [mbind completion_bind]. cbn.
  destruct (own_prop "choices" ps) as [[| |b|n|s|cs|ps'|ret|e]|]; cbn; try discriminate.
  destruct cs as [|c cs]; cbn.
  - intros _. exists JUndefined. split; [reflexivity|left; reflexivity].
  - intros H. apply andb_prop in H as [Hc _]. revert Hc.
    destruct c as [| |b|n|s|l|cps|ret|e]; cbn; try discriminate.
    destruct (own_prop "message" cps) as [[| |b|n|s|l|ms|ret|e]|]; cbn; try discriminate.
    destruct (own_prop "content" ms) as [v|]; cbn; [|discriminate].
    intros Hv. exists v. split; [reflexivity|right; assumption].
Qed.

Lemma adapter_value_well_typed (fallback failure : string) (r : jsval) :
  well_typed_chat_completion r = true ->
  is_string (adapter_value fallback failure (Normal r)) = true.
Proof.
  intros H. apply first_choice_content_well_typed in H as (c & Hc & Hshape).
  unfold adapter_value. cbv [mbind completion_bind]. rewrite Hc.
  destruct Hshape as [->|Hshape]; [reflexivity|].
  destruct c as [| |b|n|s|l|ps|ret|e]; try discriminate; [reflexivity|].
  unfold js_or. destruct (truthy (JStr s)); reflexivity.
Qed.

Lemma adapter_value_no_choices (fallback failure : string) (r : jsval) :
  getProp r "choices" = Normal (JArr []) ->
  adapter_value fallback failure (Normal r) = JStr fallback.
Proof.
  intros H. unfold adapter_value, first_choice_content.
  cbv [mbind completion_bind]. rewrite H. reflexivity.
Qed.

Lemma adapter_value_first_choice
      (fallback failure : string) (r choice msg c : jsval) (rest : list jsval) :
  getProp r "choices" = Normal (JArr (choice :: rest)) ->
  getProp choice "message" = Normal msg ->
  getProp msg "content" = Normal c ->
  truthy c = true ->
  adapter_value fallback failure (Normal r) = c.
Proof.
  intros Hr Hchoice Hmsg Hc. unfold adapter_value, first_choice_content.
  cbv [mbind completion_bind]. rewrite Hr. cbn [getIndex List.nth].
  assert (nullish choice = false) as -> by (destruct choice; try reflexivity; discriminate).
  rewrite Hchoice.
  assert (nullish msg = false) as -> by (destruct msg; try reflexivity; discriminate).
  rewrite Hmsg. unfold js_or. rewrite Hc. reflexivity.
Qed.


(** C3: whatever the provider does, the two text-completion adapters
    return a value and never raise.  On a response with zero choices they
    return "No response from Groq." and "No response"; on a thrown error
    they return "Error processing text with Groq." and "Error processing
    query with Groq."; on every response of the shape the SDK declares they
    return a string.  The handlers put the error string in an HTTP 200
    body. *)
Theorem text_completion_adapters_degrade_to_strings
        (pdfContent : string) (query : jsval) (w : World) :
  let outcomeA := chatCompletionsCreate (comparison_request pdfContent) in
  let outcomeB := chatCompletionsCreate (query_request query) in
  let a := fst (getGroqChatCompletion chatCompletionsCreate pdfContent w) in
  let b := fst (getGroqChatCompletionForQuery chatCompletionsCreate query w) in
  ((exists v, a = Normal v) /\ (exists v, b = Normal v)) /\
  (forall r, getProp r "choices" = Normal (JArr []) ->
     (outcomeA = Normal r -> a = Normal (JStr "No response from Groq.")) /\
     (outcomeB = Normal r -> b = Normal (JStr "No response"))) /\
  (forall e,
     (outcomeA = Throw e -> a = Normal (JStr "Error processing text with Groq.")) /\
     (outcomeB = Throw e -> b = Normal (JStr "Error processing query with Groq."))) /\
  (forall r, well_typed_chat_completion r = true ->
     (outcomeA = Normal r -> exists s, a = Normal (JStr s)) /\
     (outcomeB = Normal r -> exists s, b = Normal (JStr s))) /\
  (forall (f : MemoryFile) (files : gmap string FileNode) (pdfText : PdfData) (e : JsError),
     pdfParse (buffer f) = Normal pdfText ->
     chatCompletionsCreate (comparison_request (text pdfText)) = Throw e ->
     delivered (res (snd (analyzepdf chatCompletionsCreate pdfParse
                            (mkUpload (Some f)) (start files)))) =
       Some (200, JObj [("pdfContent", JStr (text pdfText));
                        ("groqResponse", JStr "Error processing text with Groq.")])) /\
  (forall (files : gmap string FileNode) (props : list (string * jsval)) (e : JsError),
     own_prop "query" props = Some query ->
     truthy query = true ->
     outcomeB = Throw e ->
     delivered (res (snd (analyze chatCompletionsCreate
                            (mkJsonRequest (JObj props)) (start files)))) =
       Some (200, JObj [("analysis", JStr "Error processing query with Groq.")])).
Proof.
  intros outcomeA outcomeB a b. subst a b.
  rewrite getGroqChatCompletion_value, getGroqChatCompletionForQuery_value.
  fold outcomeA outcomeB.
  split; [split; eexists; reflexivity|].
  split; [intros r Hr; split; intros ->; f_equal; apply adapter_value_no_choices, Hr|].
  split; [intros e; split; intros ->; reflexivity|].
  split.
  { intros r Hr; split; intros ->.
    - pose proof (adapter_value_well_typed "No response from Groq."
                    "Error processing text with Groq." r Hr) as H.
      destruct (adapter_value _ _ _); try discriminate. eexists; reflexivity.
    - pose proof (adapter_value_well_typed "No response"
                    "Error processing query with Groq." r Hr) as H.
      destruct (adapter_value _ _ _); try discriminate. eexists; reflexivity. }
  split.
  - intros f files pdfText e Hpdf Hthrow.
    rewrite analyzepdf_run, Hpdf. cbv zeta. rewrite Hthrow. reflexivity.
  - intros files props e Hprop Htruthy Hthrow.
    rewrite analyze_run. cbn [destructure getProp]. rewrite Hprop.
    cbn [default from_option id]. rewrite Htruthy. cbv zeta.
    fold outcomeB. rewrite Hthrow. reflexivity.
Qed.

(** C5: when [/analyzepdf] answers 200, the [pdfContent] field of the body
    is the text the extractor produced for the uploaded bytes, whatever
    the text-completion provider did; and it answers 200 whenever the
    extractor succeeds. *)
Theorem pdfContent_is_extractor_text
        (req : UploadRequest MemoryFile) (files : gmap string FileNode) :
  let out := analyzepdf chatCompletionsCreate pdfParse req (start files) in
  (forall (f : MemoryFile) (pdfText : PdfData),
     file req = Some f ->
     pdfParse (buffer f) = Normal pdfText ->
     exists groqResponse,
       delivered (res (snd out)) =
         Some (200, JObj [("pdfContent", JStr (text pdfText));
                          ("groqResponse", groqResponse)])) /\
  (forall body : jsval,
     delivered (res (snd out)) = Some (200, body) ->
     exists (f : MemoryFile) (pdfText : PdfData),
       file req = Some f /\
       pdfParse (buffer f) = Normal pdfText /\
       getProp body "pdfContent" = Normal (JStr (text pdfText))).
Proof.
  intros out. subst out. destruct req as [[f|]].
  - rewrite analyzepdf_run. split.
    + intros f' pdfText Hf Hpdf. cbn [file] in Hf. inversion Hf; subst f'.
      rewrite Hpdf. cbv zeta. eexists. reflexivity.
    + intros body. destruct (pdfParse (buffer f)) as [pdfText|e] eqn:Hpdf.
      * cbv zeta. cbn [snd res delivered]. intros H. inversion H; subst body.
        exists f, pdfText. repeat split. assumption.
      * cbn. intros H. inversion H.
  - split.
    + intros f pdfText Hf. discriminate.
    + intros body. cbn. intros H. inversion H.
Qed.

(** C7: the document-comparison adapter issues one chat-completion call,
    and no other provider call; its only message has role "user" and, as
    content, the extracted text followed by the comparison instruction
    (two line feeds, then "Compare it with new Indian laws and highlight
    what are added or removed (changes)."), for model
    "llama-3.3-70b-versatile".  When the first choice of the response has a
    message with truthy content, the adapter returns that content. *)
Theorem comparison_adapter_one_templated_call (pdfContent : string) (w : World) :
  let req := mkGroqRequest
               [mkMessage "user" (JStr (pdfContent +:+ comparison_instruction))]
               "llama-3.3-70b-versatile" in
  let out := getGroqChatCompletion chatCompletionsCreate pdfContent w in
  chat_requests (trace (snd out)) = (chat_requests (trace w) ++ [req])%list /\
  provider_calls (trace (snd out)) =
    (provider_calls (trace w) ++ [EvChatCompletion req])%list /\
  comparison_instruction =
    String "010" (String "010"
      "Compare it with new Indian laws and highlight what are added or removed (changes).") /\
  (forall (r choice msg c : jsval) (rest : list jsval),
     chatCompletionsCreate req = Normal r ->
     getProp r "choices" = Normal (JArr (choice :: rest)) ->
     getProp choice "message" = Normal msg ->
     getProp msg "content" = Normal c ->
     truthy c = true ->
     fst out = Normal c).
Proof.
  intros req out. subst out. fold (comparison_request pdfContent) in req.
  destruct (getGroqChatCompletion_world pdfContent w) as (_ & _ & evs & Htr & Hreqs & Hcalls).
  rewrite Htr, chat_requests_app, provider_calls_app, Hreqs, Hcalls.
  split; [reflexivity|split; [reflexivity|split; [reflexivity|]]].
  - intros r choice msg c rest Hcreate Hr Hchoice Hmsg Hc.
    rewrite getGroqChatCompletion_value. subst req. rewrite Hcreate. f_equal.
    eapply adapter_value_first_choice; eassumption.
Qed.

(** C8: the free-text query adapter issues one chat-completion call, and
    no other provider call; its only message has role "user" and the
    caller's query itself as content, with nothing added. *)
Theorem query_adapter_one_verbatim_call (query : jsval) (w : World) :
  let req := mkGroqRequest [mkMessage "user" query] "llama-3.3-70b-versatile" in
  let out := getGroqChatCompletionForQuery chatCompletionsCreate query w in
  chat_requests (trace (snd out)) = (chat_requests (trace w) ++ [req])%list /\
  provider_calls (trace (snd out)) =
    (provider_calls (trace w) ++ [EvChatCompletion req])%list.
Proof.
  intros req out. subst out. fold (query_request query) in req.
  destruct (getGroqChatCompletionForQuery_world query w)
    as (_ & _ & evs & Htr & Hreqs & Hcalls).
  rewrite Htr, chat_requests_app, provider_calls_app, Hreqs, Hcalls.
  split; reflexivity.
Qed.

(** C10: in [/analyze] a "query" field that holds a falsy value (the empty
    string, 0, null, ...) is rejected exactly as an absent field is: HTTP
    400 with {error: "Query text is required."} and no provider call.  The
    handler tests the value, not the presence of the field. *)
Theorem falsy_query_rejected_like_absent
        (files : gmap string FileNode) (props : list (string * jsval)) (v : jsval) :
  own_prop "query" props = Some v ->
  truthy v = false ->
  let out := analyze chatCompletionsCreate (mkJsonRequest (JObj props)) (start files) in
  delivered (res (snd out)) = Some (400, JObj [("error", JStr "Query text is required.")]) /\
  provider_calls (trace (snd out)) = [] /\
  out = analyze chatCompletionsCreate (mkJsonRequest (JObj [])) (start files) /\
  truthy (JStr "") = false /\
  truthy (JNum (S754_zero false)) = false /\
  truthy JNull = false.
Proof.
  intros Hprop Hfalsy out. subst out. rewrite !analyze_run.
  cbn [destructure getProp]. rewrite Hprop. cbn [default from_option id own_prop].
  rewrite Hfalsy. cbn. repeat split; reflexivity.
Qed.

End Properties.

(* ===================================================================== *)
(** ** The theorems at the sample collaborators *)
(* ===================================================================== *)

(** C1 at a staged upload and a provider that is down: the hypotheses hold
    and the file stays. *)
Lemma analyzecontract_provider_error_leaves_file_witness :
  Sample.files !! Sample.filePath = Some (mkFile Sample.pdf_bytes false) /\
  Sample.gemini_down (contract_request Sample.pdf_bytes) = Throw (Error_ "fetch failed") /\
  let out := analyzecontract Sample.dirname Sample.path_join Sample.gemini_down
                             (mkUpload (Some Sample.upload)) (start Sample.files) in
  fst out = Normal tt /\
  delivered (res (snd out)) =
    Some (500, JObj [("error", JStr "Failed to analyze contract. Details: fetch failed")]) /\
  unlink_count Sample.filePath (trace (snd out)) = 0%nat /\
  fs (snd out) !! Sample.filePath = Some (mkFile Sample.pdf_bytes false).
Proof.
  assert (Sample.files !! Sample.filePath = Some (mkFile Sample.pdf_bytes false)) as Hnode
    by (vm_compute; reflexivity).
  split; [exact Hnode|]. split; [reflexivity|].
  exact (analyzecontract_provider_error_leaves_file
           Sample.dirname Sample.path_join Sample.gemini_down Sample.upload
           Sample.files (mkFile Sample.pdf_bytes false) (Error_ "fetch failed")
           Hnode eq_refl).
Defined.



(** C3 at a provider that answers with no choice, one that is down, and
    one that answers as the SDK declares. *)
Lemma text_completion_adapters_degrade_to_strings_witness :
  (fst (getGroqChatCompletion Sample.groq_no_choices "Clause 1." (start ∅)) =
     Normal (JStr "No response from Groq.") /\
   fst (getGroqChatCompletionForQuery Sample.groq_no_choices Sample.question (start ∅)) =
     Normal (JStr "No response")) /\
  (fst (getGroqChatCompletion Sample.groq_down "Clause 1." (start ∅)) =
     Normal (JStr "Error processing text with Groq.") /\
   fst (getGroqChatCompletionForQuery Sample.groq_down Sample.question (start ∅)) =
     Normal (JStr "Error processing query with Groq.")) /\
  (well_typed_chat_completion (Sample.chat_completion [JStr "Section 4 was added."]) = true /\
   exists s, fst (getGroqChatCompletion Sample.groq_ok "Clause 1." (start ∅)) =
             Normal (JStr s)) /\
  delivered (res (snd (analyzepdf Sample.groq_down Sample.pdf_ok
                         (mkUpload (Some Sample.memory_upload)) (start ∅)))) =
    Some (200, JObj [("pdfContent", JStr "Clause 1. The tenant pays.");
                     ("groqResponse", JStr "Error processing text with Groq.")]) /\
  delivered (res (snd (analyze Sample.groq_down
                         (mkJsonRequest (JObj [("query", Sample.question)])) (start ∅)))) =
    Some (200, JObj [("analysis", JStr "Error processing query with Groq.")]).
Proof.
  pose proof (text_completion_adapters_degrade_to_strings Sample.groq_no_choices
                Sample.pdf_ok "Clause 1." Sample.question (start ∅)) as Hnone.
  pose proof (text_completion_adapters_degrade_to_strings Sample.groq_down
                Sample.pdf_ok "Clause 1." Sample.question (start ∅)) as Hdown.
  pose proof (text_completion_adapters_degrade_to_strings Sample.groq_ok
                Sample.pdf_ok "Clause 1." Sample.question (start ∅)) as Hok.
  cbv zeta in Hnone, Hdown, Hok.
  destruct Hnone as (_ & Hzero & _).
  destruct Hdown as (_ & _ & Hthrow & _ & Hpdf & Hquery).
  destruct Hok as (_ & _ & _ & Htyped & _).
  split.
  { destruct (Hzero (Sample.chat_completion []) eq_refl) as [HA HB].
    split; [exact (HA eq_refl)|exact (HB eq_refl)]. }
  split.
  { destruct (Hthrow (Error_ "Connection error.")) as [HA HB].
    split; [exact (HA eq_refl)|exact (HB eq_refl)]. }
  split.
  { split; [reflexivity|].
    exact (proj1 (Htyped (Sample.chat_completion [JStr "Section 4 was added."]) eq_refl)
                 eq_refl). }
  split.
  - exact (Hpdf Sample.memory_upload ∅ (mkPdfData 1 "Clause 1. The tenant pays.")
                (Error_ "Connection error.") eq_refl eq_refl).
  - exact (Hquery ∅ [("query", Sample.question)] (Error_ "Connection error.")
                  eq_refl eq_refl eq_refl).
Defined.

(** C4 at a provider result without a response object. *)
Lemma analysis_failure_wrapped_and_answered_500_witness :
  Sample.files !! Sample.filePath = Some (mkFile Sample.pdf_bytes false) /\
  Sample.gemini_no_response (contract_request Sample.pdf_bytes) = Normal (JObj []) /\
  fst (analyzeContractWithGemini_try Sample.gemini_no_response Sample.filePath
         (start Sample.files)) = Throw (Error_ "Invalid response from Gemini API") /\
  fst (analyzeContractWithGemini Sample.gemini_no_response Sample.filePath
         (start Sample.files)) =
    Throw (Error_ "Failed to analyze contract. Details: Invalid response from Gemini API") /\
  delivered (res (snd (analyzecontract Sample.dirname Sample.path_join
                         Sample.gemini_no_response
                         (mkUpload (Some Sample.upload)) (start Sample.files)))) =
    Some (500, JObj [("error",
                      JStr "Failed to analyze contract. Details: Invalid response from Gemini API")]).
Proof.
  destruct (analysis_failure_wrapped_and_answered_500 Sample.dirname Sample.path_join
              Sample.gemini_no_response) as (Hinvalid & Hwrap & Hanswer).
  assert (Sample.files !! Sample.filePath = Some (mkFile Sample.pdf_bytes false)) as Hnode
    by (vm_compute; reflexivity).
  assert (fst (analyzeContractWithGemini_try Sample.gemini_no_response Sample.filePath
                 (start Sample.files)) = Throw (Error_ "Invalid response from Gemini API"))
    as Htry.
  { apply (Hinvalid Sample.filePath (start Sample.files)
                    (mkFile Sample.pdf_bytes false) (JObj []) Hnode eq_refl).
    right; right; left. exists []. split; reflexivity. }
  split; [exact Hnode|]. split; [reflexivity|]. split; [exact Htry|].
  split.
  - rewrite (Hwrap Sample.filePath (start Sample.files)), Htry. reflexivity.
  - exact (proj2 (Hanswer Sample.upload Sample.files
                          (Error_ "Invalid response from Gemini API") Htry)).
Defined.

(** C5 at an upload the extractor reads, with the provider down. *)
Lemma pdfContent_is_extractor_text_witness :
  Sample.pdf_ok Sample.pdf_bytes = Normal (mkPdfData 1 "Clause 1. The tenant pays.") /\
  let out := analyzepdf Sample.groq_down Sample.pdf_ok
                        (mkUpload (Some Sample.memory_upload)) (start ∅) in
  (exists groqResponse,
     delivered (res (snd out)) =
       Some (200, JObj [("pdfContent", JStr "Clause 1. The tenant pays.");
                        ("groqResponse", groqResponse)])) /\
  (exists body, delivered (res (snd out)) = Some (200, body) /\
                getProp body "pdfContent" = Normal (JStr "Clause 1. The tenant pays.")).
Proof.
  destruct (pdfContent_is_extractor_text Sample.groq_down Sample.pdf_ok
              (mkUpload (Some Sample.memory_upload)) ∅) as [Hthere Hback].
  split; [reflexivity|]. cbv zeta. split.
  - exact (Hthere Sample.memory_upload (mkPdfData 1 "Clause 1. The tenant pays.")
                  eq_refl eq_refl).
  - eexists. split; [reflexivity|].
    destruct (Hback _ eq_refl) as (f & pdfText & Hf & Hpdf & Hbody).
    inversion Hpdf; subst pdfText. exact Hbody.
Defined.

(** C6 at a provider text with emphasis markers. *)
Lemma analysis_text_has_no_asterisk_witness :
  Sample.files !! Sample.filePath = Some (mkFile Sample.pdf_bytes false) /\
  Sample.gemini_ok (contract_request Sample.pdf_bytes) =
    Normal (Sample.gemini_result "*Risk* clause 4 is **one-sided**") /\
  fst (analyzeContractWithGemini Sample.gemini_ok Sample.filePath (start Sample.files)) =
    Normal (JStr "Risk clause 4 is one-sided") /\
  asterisk_free "Risk clause 4 is one-sided" = true.
Proof.
  assert (Sample.files !! Sample.filePath = Some (mkFile Sample.pdf_bytes false)) as Hnode
    by (vm_compute; reflexivity).
  destruct (analysis_text_has_no_asterisk Sample.gemini_ok Sample.filePath
              (start Sample.files) (mkFile Sample.pdf_bytes false)
              (Sample.gemini_result "*Risk* clause 4 is **one-sided**")
              (JObj [("text", JFun (JStr "*Risk* clause 4 is **one-sided**"))])
              "*Risk* clause 4 is **one-sided**"
              Hnode eq_refl eq_refl eq_refl eq_refl) as (Hvalue & Hfree & _).
  split; [exact Hnode|]. split; [reflexivity|]. split; [exact Hvalue|exact Hfree].
Defined.

(** C7 at a provider that answers with one choice. *)
Lemma comparison_adapter_one_templated_call_witness :
  let out := getGroqChatCompletion Sample.groq_ok "Clause 1." (start ∅) in
  chat_requests (trace (snd out)) =
    [mkGroqRequest
       [mkMessage "user"
          (JStr (String.append "Clause 1."
                   (String "010" (String "010"
                      "Compare it with new Indian laws and highlight what are added or removed (changes)."))))]
       "llama-3.3-70b-versatile"] /\
  truthy (JStr "Section 4 was added.") = true /\
  fst out = Normal (JStr "Section 4 was added.").
Proof.
  destruct (comparison_adapter_one_templated_call Sample.groq_ok "Clause 1." (start ∅))
    as (Hreqs & _ & _ & Hfirst).
  cbv zeta. split; [|split; [reflexivity|]].
  - exact Hreqs.
  - exact (Hfirst (Sample.chat_completion [JStr "Section 4 was added."])
                  (Sample.choice (JStr "Section 4 was added.")) 
                  (JObj [("role", JStr "assistant"); ("content", JStr "Section 4 was added.")])
                  (JStr "Section 4 was added.") []
                  eq_refl eq_refl eq_refl eq_refl eq_refl).
Defined.

(** C8 at a sample question. *)
Lemma query_adapter_one_verbatim_call_witness :
  chat_requests
    (trace (snd (getGroqChatCompletionForQuery Sample.groq_ok Sample.question (start ∅)))) =
  [mkGroqRequest [mkMessage "user" (JStr "define force majeure")] "llama-3.3-70b-versatile"].
Proof.
  exact (proj1 (query_adapter_one_verbatim_call Sample.groq_ok Sample.question (start ∅))).
Defined.

(** C9 at a staged upload the operating system refuses to delete. *)
Lemma unlink_failure_reaches_catch_after_200_witness :
  let analysis := JStr "Risk clause 4 is one-sided" in
  let gone := Error_ "EPERM: operation not permitted, unlink '/srv/app/uploads/3f2a9c'" in
  fst (analyzeContractWithGemini Sample.gemini_ok Sample.filePath
         (start Sample.files_locked)) = Normal analysis /\
  fst (unlinkSync Sample.filePath (start Sample.files_locked)) = Throw gone /\
  let out := analyzecontract Sample.dirname Sample.path_join Sample.gemini_ok
                             (mkUpload (Some Sample.upload)) (start Sample.files_locked) in
  List.skipn 4 (trace (snd out)) =
    [EvJson (JObj [("analysis", analysis)]);
     EvUnlink Sample.filePath;
     EvStatus 500;
     EvJson (JObj [("error", JStr (message gone))])] /\
  delivered (res (snd out)) = Some (200, JObj [("analysis", analysis)]) /\
  fst out = Throw (Error_ "Cannot set headers after they are sent to the client").
Proof.
  cbv zeta.
  assert (fst (unlinkSync Sample.filePath (start Sample.files_locked)) =
          Throw (Error_ "EPERM: operation not permitted, unlink '/srv/app/uploads/3f2a9c'"))
    as Hunlink by (vm_compute; reflexivity).
  assert (exists w1, analyzeContractWithGemini Sample.gemini_ok Sample.filePath
                       (start Sample.files_locked) =
                     (Normal (JStr "Risk clause 4 is one-sided"), w1) /\
                     length (trace w1) = 4%nat) as (w1 & Hrun & Hlen).
  { eexists. split; vm_compute; reflexivity. }
  destruct (unlink_failure_reaches_catch_after_200 Sample.dirname Sample.path_join
              Sample.gemini_ok Sample.upload Sample.files_locked
              (JStr "Risk clause 4 is one-sided") w1 _ Hrun Hunlink)
    as (Htrace & Hdelivered & Hthrow).
  split; [rewrite Hrun; reflexivity|]. split; [exact Hunlink|].
  split; [|split; [exact Hdelivered|exact Hthrow]].
  rewrite Htrace. rewrite List.skipn_app, <- Hlen, List.skipn_all, Nat.sub_diag.
  reflexivity.
Defined.

(** C10 at the empty string, at zero and at [null]. *)
Lemma falsy_query_rejected_like_absent_witness :
  (own_prop "query" [("query", JStr "")] = Some (JStr "") /\
   truthy (JStr "") = false /\
   delivered (res (snd (analyze Sample.groq_ok (mkJsonRequest (JObj [("query", JStr "")]))
                          (start ∅)))) =
     Some (400, JObj [("error", JStr "Query text is required.")])) /\
  delivered (res (snd (analyze Sample.groq_ok
                         (mkJsonRequest (JObj [("query", JNum (S754_zero false))]))
                         (start ∅)))) =
    Some (400, JObj [("error", JStr "Query text is required.")]) /\
  delivered (res (snd (analyze Sample.groq_ok (mkJsonRequest (JObj [("query", JNull)]))
                         (start ∅)))) =
    Some (400, JObj [("error", JStr "Query text is required.")]).
Proof.
  split; [split; [reflexivity|split; [reflexivity|]]|split].
  - exact (proj1 (falsy_query_rejected_like_absent Sample.groq_ok ∅
                    [("query", JStr "")] (JStr "") eq_refl eq_refl)).
  - exact (proj1 (falsy_query_rejected_like_absent Sample.groq_ok ∅
                    [("query", JNum (S754_zero false))] (JNum (S754_zero false))
                    eq_refl eq_refl)).
  - exact (proj1 (falsy_query_rejected_like_absent Sample.groq_ok ∅
                    [("query", JNull)] JNull eq_refl eq_refl)).
Defined.

(* ===================================================================== *)
(** ** Further properties of the adapters and the handlers *)
(* ===================================================================== *)

Lemma file_reads_app (tr1 tr2 : list event) :
  file_reads (tr1 ++ tr2) = (file_reads tr1 ++ file_reads tr2)%list.
Proof.
  induction tr1 as [|e tr1 IH]; simpl; [reflexivity|].
  destruct e; simpl; rewrite IH; reflexivity.
Qed.

Lemma remove_asterisks_id (s : string) :
  asterisk_free s = true -> remove_asterisks s = s.
Proof.
  induction s as [|c s IH]; simpl; [reflexivity|].
  destruct (Ascii.eqb c "*"%char); simpl; [discriminate|].
  intros H. rewrite IH by assumption. reflexivity.
Qed.

Lemma remove_asterisks_app (a b : string) :
  remove_asterisks (a +:+ b) = remove_asterisks a +:+ remove_asterisks b.
Proof.
  induction a as [|c a IH]; simpl; [reflexivity|].
  destruct (Ascii.eqb c "*"%char); simpl; rewrite IH; reflexivity.
Qed.

Lemma remove_asterisks_length (s : string) :
  (String.length (remove_asterisks s) <= String.length s)%nat.
Proof.
  induction s as [|c s IH]; simpl; [lia|].
  destruct (Ascii.eqb c "*"%char); simpl; lia.
Qed.

(** What a Groq adapter returns is never falsy. *)
Lemma adapter_value_truthy (fallback failure : string) (outcome : completion jsval) :
  fallback <> "" -> failure <> "" ->
  truthy (adapter_value fallback failure outcome) = true.
Proof.
  intros Hfallback Hfailure. unfold adapter_value.
  destruct (outcome ≫= first_choice_content) as [c|e].
  - unfold js_or. destruct (truthy c) eqn:Hc; [exact Hc|].
    destruct fallback; [congruence|reflexivity].
  - destruct failure; [congruence|reflexivity].
Qed.

Section Coverage.

Variable dirname : string.
Variable path_join : string -> string -> string.
Variable generateContent : GeminiRequest -> completion jsval.
Variable chatCompletionsCreate : GroqRequest -> completion jsval.
Variable pdfParse : list Byte.byte -> completion PdfData.

(** Everything the Gemini adapter does to the world. *)
Lemma analyzeContractWithGemini_effects (filePath : string) (w : World) :
  let w' := snd (analyzeContractWithGemini generateContent filePath w) in
  fs w' = fs w /\ res w' = res w /\
  exists evs,
    trace w' = (trace w ++ evs)%list /\
    file_reads evs = [filePath] /\
    (forall p, unlink_count p evs = 0%nat) /\
    List.filter fs_event evs = [EvReadFile filePath] /\
    chat_requests evs = [] /\
    provider_calls evs =
      match fs w !! filePath with
      | Some node => [EvGenerateContent (contract_request (file_data node))]
      | None => []
      end.
Proof.
  rewrite analyzeContractWithGemini_run, analyzeContractWithGemini_try_run.
  destruct (fs w !! filePath) as [node|].
  - cbv zeta. destruct (generateContent _) as [result|e].
    + destruct (response_text result); cbn [snd logged fs res trace];
        (split; [reflexivity|split; [reflexivity|]]);
        eexists; (split; [tidy; reflexivity|]); repeat split; reflexivity.
    + cbn [snd logged fs res trace]. split; [reflexivity|split; [reflexivity|]].
      eexists; (split; [tidy; reflexivity|]); repeat split; reflexivity.
  - cbn [snd logged fs res trace]. split; [reflexivity|split; [reflexivity|]].
    eexists; (split; [tidy; reflexivity|]); repeat split; reflexivity.
Qed.

(** The document-analysis adapter reads the staged file once and does
    nothing else to the world: it deletes no file, leaves the file system
    and the response as they were, and calls no chat completion. *)
Theorem gemini_adapter_reads_once_deletes_nothing (filePath : string) (w : World) :
  let w' := snd (analyzeContractWithGemini generateContent filePath w) in
  fs w' = fs w /\
  res w' = res w /\
  file_reads (trace w') = (file_reads (trace w) ++ [filePath])%list /\
  (forall p, unlink_count p (trace w') = unlink_count p (trace w)) /\
  chat_requests (trace w') = chat_requests (trace w).
Proof.
  intros w'. subst w'.
  destruct (analyzeContractWithGemini_effects filePath w)
    as (Hfs & Hres & evs & Htr & Hreads & Hunlink & _ & Hchat & _).
  rewrite Htr, file_reads_app, chat_requests_app, Hreads, Hchat, List.app_nil_r.
  repeat split; try assumption.
  intros p. rewrite unlink_count_app, Hunlink. lia.
Qed.

(** When the staged file is not at [path.join(__dirname, req.file.path)],
    [/analyzecontract] answers 500 with the wrapped ENOENT message of
    [readFileSync] and calls no provider. *)
Theorem analyzecontract_file_not_found (f : DiskFile) (files : gmap string FileNode) :
  let filePath := path_join dirname (path f) in
  files !! filePath = None ->
  let out := analyzecontract dirname path_join generateContent
                             (mkUpload (Some f)) (start files) in
  fst out = Normal tt /\
  delivered (res (snd out)) =
    Some (500, JObj [("error",
                      JStr ("Failed to analyze contract. Details: " +:+
                            "ENOENT: no such file or directory, open '" +:+ filePath +:+ "'"))]) /\
  provider_calls (trace (snd out)) = [] /\
  fs (snd out) = files.
Proof.
  intros filePath Hnone out. subst out.
  rewrite analyzecontract_run. fold filePath.
  rewrite analyzeContractWithGemini_run, analyzeContractWithGemini_try_run.
  cbn [start fs]. rewrite Hnone. cbn. repeat split; reflexivity.
Qed.

(** [/analyzecontract] calls a provider at most once, and never the
    chat-completion one: when the request carries a file that is on disk,
    its one call is [generateContent] with the model "gemini-1.5-flash",
    the file's bytes in base64 as "application/pdf", and the fixed
    instruction; otherwise it calls none. *)
Theorem analyzecontract_provider_calls
        (req : UploadRequest DiskFile) (files : gmap string FileNode) :
  let out := analyzecontract dirname path_join generateContent req (start files) in
  chat_requests (trace (snd out)) = [] /\
  provider_calls (trace (snd out)) =
    match file req with
    | Some f =>
        match files !! path_join dirname (path f) with
        | Some node =>
            [EvGenerateContent
               (mkGeminiRequest "gemini-1.5-flash" "application/pdf"
                                (base64 (file_data node)) analysis_instruction)]
        | None => []
        end
    | None => []
    end.
Proof.
  intros out. subst out. destruct req as [[f|]]; cbn [file]; [|split; reflexivity].
  rewrite analyzecontract_run.
  pose proof (analyzeContractWithGemini_effects (path_join dirname (path f)) (start files)) as H.
  cbv zeta in *.
  destruct (analyzeContractWithGemini generateContent (path_join dirname (path f)) (start files))
    as [[analysis|e] w1]; cbn [snd] in H;
    destruct H as (_ & _ & evs & Htr & _ & _ & _ & Hchat & Hprov);
    cbn [start trace fs List.app] in Htr, Hprov; fold (contract_request) in Hprov.
  - destruct (files !! path_join dirname (path f)) as [node|];
      [destruct (locked node)|]; cbn [snd trace];
      rewrite Htr, chat_requests_app, provider_calls_app, Hchat, Hprov;
      split; reflexivity.
  - cbn [snd trace].
    rewrite Htr, chat_requests_app, provider_calls_app, Hchat, Hprov.
    destruct (files !! path_join dirname (path f)); split; reflexivity.
Qed.

(** [/analyzecontract] deletes nothing but the file it staged: it calls
    [unlinkSync] at most once per path, and every other path of the file
    system is left as it was and is never passed to [unlinkSync]. *)
Theorem analyzecontract_touches_only_staged_file
        (req : UploadRequest DiskFile) (files : gmap string FileNode) (p : string) :
  let out := analyzecontract dirname path_join generateContent req (start files) in
  (unlink_count p (trace (snd out)) <= 1)%nat /\
  ((forall f, file req = Some f -> p <> path_join dirname (path f)) ->
   fs (snd out) !! p = files !! p /\ unlink_count p (trace (snd out)) = 0%nat).
Proof.
  intros out. subst out. destruct req as [[f|]]; cbn [file].
  2:{ unfold analyzecontract. cbn [file]. run. cbn.
      split; [lia|]. intros _. split; reflexivity. }
  rewrite analyzecontract_run.
  pose proof (analyzeContractWithGemini_effects (path_join dirname (path f)) (start files)) as H.
  set (filePath := path_join dirname (path f)) in *. cbv zeta in *.
  destruct (analyzeContractWithGemini generateContent filePath (start files))
    as [[analysis|e] w1]; cbn [snd] in H;
    destruct H as (_ & _ & evs & Htr & _ & Hunlink & _);
    cbn [start trace List.app] in Htr.
  - assert (forall tail,
              unlink_count p (evs ++ EvJson (JObj [("analysis", analysis)])
                                  :: EvUnlink filePath :: tail) =
              (if String.eqb p filePath then 1 else 0)%nat + unlink_count p tail)%nat
      as Hcount.
    { intros tail. rewrite unlink_count_app, Hunlink. cbn.
      destruct (String.eqb p filePath); reflexivity. }
    destruct (files !! filePath) as [node|] eqn:Hnode;
      [destruct (locked node)|]; cbn [snd trace fs]; rewrite Htr, Hcount; cbn;
      (split; [destruct (String.eqb p filePath); lia|]);
      intros Hp; specialize (Hp f eq_refl); change (p <> filePath) in Hp;
      apply String.eqb_neq in Hp as Heq; rewrite Heq;
      (split; [|reflexivity]); try reflexivity.
    apply lookup_delete_ne. congruence.
  - cbn [snd trace fs]. rewrite Htr, unlink_count_app, Hunlink. cbn.
    split; [lia|]. intros _. split; reflexivity.
Qed.

(** The promise of [/analyzecontract] rejects in one situation only: the
    adapter has returned, the 200 response with the analysis has gone out,
    and the staged file cannot be deleted.  The error is then Express's
    "Cannot set headers after they are sent to the client". *)
Theorem analyzecontract_rejects_only_after_200
        (req : UploadRequest DiskFile) (files : gmap string FileNode) (e : JsError) :
  let out := analyzecontract dirname path_join generateContent req (start files) in
  fst out = Throw e ->
  e = Error_ "Cannot set headers after they are sent to the client" /\
  exists (f : DiskFile) (node : FileNode) (analysis : jsval),
    file req = Some f /\
    files !! path_join dirname (path f) = Some node /\
    locked node = true /\
    delivered (res (snd out)) = Some (200, JObj [("analysis", analysis)]).
Proof.
  intros out. subst out. destruct req as [[f|]]; cbn [file];
    [|unfold analyzecontract; cbn [file]; run; cbn; discriminate].
  rewrite analyzecontract_run, analyzeContractWithGemini_run,
    analyzeContractWithGemini_try_run.
  cbn [start fs].
  destruct (files !! path_join dirname (path f)) as [node|] eqn:Hnode;
    [|cbn; discriminate].
  cbv zeta. destruct (generateContent _) as [result|e']; [|cbn; discriminate].
  destruct (response_text result) as [analysis|e']; [|cbn; discriminate].
  destruct (locked node) eqn:Hlocked; cbn; [|discriminate].
  intros H. inversion H. split; [reflexivity|].
  exists f, node, analysis. repeat split; assumption.
Qed.

(** Everything the document-comparison adapter does to the world. *)
Lemma getGroqChatCompletion_effects (pdfContent : string) (w : World) :
  let w' := snd (getGroqChatCompletion chatCompletionsCreate pdfContent w) in
  fs w' = fs w /\ res w' = res w /\
  exists evs, trace w' = (trace w ++ evs)%list /\
              List.filter fs_event evs = [] /\
              provider_calls evs = [EvChatCompletion (comparison_request pdfContent)].
Proof.
  rewrite getGroqChatCompletion_run. cbv zeta. fold (comparison_request pdfContent).
  destruct (_ ≫= first_choice_content); cbn [snd logged fs res trace];
    (split; [reflexivity|split; [reflexivity|]]); eexists;
    (split; [reflexivity|split; reflexivity]).
Qed.

(** [/analyzepdf] calls a provider at most once, and never the
    document-analysis one: when the extractor has produced the text, its
    one call is the chat completion for that text followed by the
    comparison instruction; without a file, or when the extractor throws,
    it calls none. *)
Theorem analyzepdf_provider_calls
        (req : UploadRequest MemoryFile) (files : gmap string FileNode) :
  let out := analyzepdf chatCompletionsCreate pdfParse req (start files) in
  provider_calls (trace (snd out)) =
    match file req with
    | Some f =>
        match pdfParse (buffer f) with
        | Normal pdfText =>
            [EvChatCompletion
               (mkGroqRequest
                  [mkMessage "user" (JStr (text pdfText +:+ comparison_instruction))]
                  "llama-3.3-70b-versatile")]
        | Throw _ => []
        end
    | None => []
    end.
Proof.
  intros out. subst out. destruct req as [[f|]]; cbn [file]; [|reflexivity].
  rewrite analyzepdf_run. destruct (pdfParse (buffer f)) as [pdfText|e]; [|reflexivity].
  cbv zeta. cbn [snd trace].
  destruct (getGroqChatCompletion_effects (text pdfText)
              (logged (start files) [EvPdfParse (buffer f)]))
    as (_ & _ & evs & Htr & _ & Hprov).
  rewrite Htr, !provider_calls_app, Hprov. reflexivity.
Qed.

(** [/analyzepdf] works in memory: whatever the request, the extractor and
    the provider do, it reads no file, deletes no file and leaves the file
    system as it was. *)
Theorem analyzepdf_leaves_file_system
        (req : UploadRequest MemoryFile) (files : gmap string FileNode) :
  let out := analyzepdf chatCompletionsCreate pdfParse req (start files) in
  fs (snd out) = files /\
  List.filter fs_event (trace (snd out)) = [].
Proof.
  intros out. subst out. destruct req as [[f|]]; cbn [file]; [|split; reflexivity].
  rewrite analyzepdf_run. destruct (pdfParse (buffer f)) as [pdfText|e];
    [|split; reflexivity].
  cbv zeta. cbn [snd trace fs]. split; [reflexivity|].
  destruct (getGroqChatCompletion_effects (text pdfText)
              (logged (start files) [EvPdfParse (buffer f)]))
    as (_ & _ & evs & Htr & Hfs & _).
  rewrite Htr, !List.filter_app, Hfs. reflexivity.
Qed.

(** [/analyzepdf] never rejects, and answers 500 exactly when the request
    carries a file the extractor throws on: the body is then the fixed
    {error: "Error analyzing the PDF."}, whatever the extractor's error
    says, and no provider is called. *)
Theorem analyzepdf_500_iff_extractor_throws
        (req : UploadRequest MemoryFile) (files : gmap string FileNode) :
  let out := analyzepdf chatCompletionsCreate pdfParse req (start files) in
  fst out = Normal tt /\
  (forall body, delivered (res (snd out)) = Some (500, body) ->
     exists f e, file req = Some f /\ pdfParse (buffer f) = Throw e) /\
  (forall f e, file req = Some f -> pdfParse (buffer f) = Throw e ->
     delivered (res (snd out)) = Some (500, JObj [("error", JStr "Error analyzing the PDF.")]) /\
     provider_calls (trace (snd out)) = []).
Proof.
  intros out. subst out. destruct req as [[f|]]; cbn [file].
  - rewrite analyzepdf_run. destruct (pdfParse (buffer f)) as [pdfText|e] eqn:Hpdf.
    + cbv zeta. cbn [fst snd res delivered]. split; [reflexivity|]. split.
      * intros body H. inversion H.
      * intros f' e Hf. inversion Hf; subst f'. rewrite Hpdf. discriminate.
    + cbn. split; [reflexivity|]. split.
      * intros body _. exists f, e. split; [reflexivity|assumption].
      * intros f' e' _ _. split; reflexivity.
  - unfold analyzepdf. cbn [file]. run. cbn. split; [reflexivity|]. split.
    + intros body H. inversion H.
    + intros f e H. discriminate.
Qed.

(** [/analyze] never rejects, and answers 500 exactly when [req.body] is
    [undefined] or [null] (it cannot be destructured): the body is then
    {error: "Failed to fetch AI insights"} and no provider is called.  A
    failing provider never makes it answer 500. *)
Theorem analyze_500_iff_no_body (b : jsval) (files : gmap string FileNode) :
  let out := analyze chatCompletionsCreate (mkJsonRequest b) (start files) in
  fst out = Normal tt /\
  ((exists body, delivered (res (snd out)) = Some (500, body)) <-> nullish b = true) /\
  (nullish b = true ->
   delivered (res (snd out)) = Some (500, JObj [("error", JStr "Failed to fetch AI insights")]) /\
   provider_calls (trace (snd out)) = []).
Proof.
  intros out. subst out. rewrite analyze_run.
  assert (nullish b = true \/
          (nullish b = false /\ exists q, destructure "req.body" b "query" = Normal q))
    as [Hb|(Hb & q & Hq)].
  { destruct b as [| |v|n|s|l|ps|ret|e]; try (left; reflexivity); right;
      (split; [reflexivity|]); cbn; eexists; reflexivity. }
  - destruct b; try discriminate; cbn; (split; [reflexivity|]);
      (split; [split; [reflexivity|intros _; eexists; reflexivity]|]);
      intros _; split; reflexivity.
  - rewrite Hq, Hb. destruct (truthy q); cbv zeta; cbn [fst snd res delivered];
      (split; [reflexivity|]);
      (split; [split; [intros (body & H); inversion H|discriminate]|discriminate]).
Qed.

(** [/analyze] hands a truthy query of any type (a string, a number, an
    object, ...) to the provider as it is, in the one chat-completion call
    it makes; whatever the provider does, it then returns normally after
    calling [res.json], with status 200, on {analysis: r}, where [r] is
    what the adapter returned. *)
Theorem analyze_forwards_truthy_query
        (props : list (string * jsval)) (query : jsval) (files : gmap string FileNode) :
  own_prop "query" props = Some query ->
  truthy query = true ->
  let out := analyze chatCompletionsCreate (mkJsonRequest (JObj props)) (start files) in
  fst out = Normal tt /\
  provider_calls (trace (snd out)) =
    [EvChatCompletion (mkGroqRequest [mkMessage "user" query] "llama-3.3-70b-versatile")] /\
  exists r,
    fst (getGroqChatCompletionForQuery chatCompletionsCreate query (start files)) = Normal r /\
    delivered (res (snd out)) = Some (200, JObj [("analysis", r)]).
Proof.
  intros Hprop Htruthy out. subst out. rewrite analyze_run.
  cbn [destructure getProp]. rewrite Hprop. cbn [default from_option id].
  rewrite Htruthy. cbv zeta. cbn [fst snd trace res delivered].
  split; [reflexivity|]. split.
  - destruct (getGroqChatCompletionForQuery_world chatCompletionsCreate query (start files))
      as (_ & _ & evs & Htr & _ & Hprov).
    rewrite Htr, !provider_calls_app, Hprov. reflexivity.
  - eexists. split; [apply getGroqChatCompletionForQuery_value|reflexivity].
Qed.

(** Whatever the provider does, what the two text-completion adapters
    return is truthy: never [undefined], [null] or the empty string. *)
Theorem groq_adapters_return_truthy (pdfContent : string) (query : jsval) (w : World) :
  (exists v, fst (getGroqChatCompletion chatCompletionsCreate pdfContent w) = Normal v /\
             truthy v = true) /\
  (exists v, fst (getGroqChatCompletionForQuery chatCompletionsCreate query w) = Normal v /\
             truthy v = true).
Proof.
  rewrite getGroqChatCompletion_value, getGroqChatCompletionForQuery_value.
  split; eexists; (split; [reflexivity|]); apply adapter_value_truthy; discriminate.
Qed.

(** The text-completion adapters read the first choice only: a response
    with the choices [c :: rest] gives what the response with the single
    choice [c] gives, so an empty first choice yields the fallback even
    when a later choice has content. *)
Theorem groq_adapters_read_first_choice_only
        (pdfContent : string) (query : jsval) (w : World)
        (r c : jsval) (rest : list jsval) :
  getProp r "choices" = Normal (JArr (c :: rest)) ->
  let single := fun _ : GroqRequest => Normal (JObj [("choices", JArr [c])]) in
  (chatCompletionsCreate (comparison_request pdfContent) = Normal r ->
   fst (getGroqChatCompletion chatCompletionsCreate pdfContent w) =
   fst (getGroqChatCompletion single pdfContent w)) /\
  (chatCompletionsCreate (query_request query) = Normal r ->
   fst (getGroqChatCompletionForQuery chatCompletionsCreate query w) =
   fst (getGroqChatCompletionForQuery single query w)).
Proof.
  intros Hr single.
  rewrite !getGroqChatCompletion_value, !getGroqChatCompletionForQuery_value.
  subst single. cbv beta.
  split; intros ->; f_equal; unfold adapter_value, first_choice_content;
    cbv [mbind completion_bind]; rewrite Hr; reflexivity.
Qed.

(** A response without a [choices] list (for instance an error payload),
    or no response object at all, is not answered with the fallback but
    with the error string: reading [choices[0]] throws inside the [try]. *)
Theorem groq_adapters_missing_choices_is_error
        (pdfContent : string) (query : jsval) (w : World) (r : jsval) :
  (nullish r = true \/
   exists c, getProp r "choices" = Normal c /\ nullish c = true) ->
  (chatCompletionsCreate (comparison_request pdfContent) = Normal r ->
   fst (getGroqChatCompletion chatCompletionsCreate pdfContent w) =
     Normal (JStr "Error processing text with Groq.")) /\
  (chatCompletionsCreate (query_request query) = Normal r ->
   fst (getGroqChatCompletionForQuery chatCompletionsCreate query w) =
     Normal (JStr "Error processing query with Groq.")).
Proof.
  intros Hr.
  rewrite getGroqChatCompletion_value, getGroqChatCompletionForQuery_value.
  assert (first_choice_content r = Throw (cannot_read r "choices") \/
          exists c, first_choice_content r = Throw (cannot_read c "0")) as Hthrow.
  { destruct Hr as [Hr|(c & Hc & Hnull)].
    - left. destruct r; try discriminate; reflexivity.
    - right. exists c. unfold first_choice_content. cbv [mbind completion_bind].
      rewrite Hc. destruct c; try discriminate; reflexivity. }
  split; intros ->; f_equal; unfold adapter_value; cbv [mbind completion_bind];
    destruct Hthrow as [->|(c & ->)]; reflexivity.
Qed.

(** What the Gemini adapter makes of [result.response.text] when a
    response object is there but the accessor does not deliver a text: a
    truthy accessor that is no function, an accessor that throws, and an
    accessor that returns [undefined] or [null] all end in the wrapped
    error, never in a returned value. *)
Theorem gemini_text_accessor_failures
        (filePath : string) (w : World) (node : FileNode) (result response t : jsval) :
  fs w !! filePath = Some node ->
  generateContent (contract_request (file_data node)) = Normal result ->
  getProp result "response" = Normal response ->
  truthy response = true ->
  getProp response "text" = Normal t ->
  let thrown (msg : string) :=
    fst (analyzeContractWithGemini generateContent filePath w) =
    Throw (Error_ ("Failed to analyze contract. Details: " +:+ msg)) in
  (truthy t = true -> is_function t = false ->
   thrown "result.response.text is not a function") /\
  (forall e, t = JFunThrow e -> thrown (message e)) /\
  (forall v, t = JFun v -> nullish v = true ->
   thrown ("Cannot read properties of " +:+ type_name v +:+ " (reading 'replace')")).
Proof.
  intros Hnode Hgen Hresp Htruthy Htext thrown. subst thrown. cbv beta.
  pose proof (truthy_member _ _ _ Hresp Htruthy) as Hresult.
  rewrite analyzeContractWithGemini_run, analyzeContractWithGemini_try_run, Hnode.
  cbv zeta. rewrite Hgen.
  assert (forall c, call "result.response.text" t ≫= call_replace "textResponse" = c ->
                    truthy t = true -> response_text result = c) as Hstep.
  { intros c Hc Ht. unfold response_text, invalid_response.
    rewrite Hresult. cbn [negb]. cbv [mbind completion_bind] in *.
    rewrite Hresp, Htruthy. cbn [negb]. rewrite Htext, Ht. cbn [negb]. exact Hc. }
  split; [|split].
  - intros Ht Hfun. rewrite (Hstep (Throw (TypeError "result.response.text is not a function"))).
    + reflexivity.
    + destruct t; try discriminate; reflexivity.
    + exact Ht.
  - intros e ->. rewrite (Hstep (Throw e)); reflexivity.
  - intros v -> Hv. rewrite (Hstep (Throw (cannot_read v "replace"))).
    + reflexivity.
    + destruct v; try discriminate; reflexivity.
    + reflexivity.
Qed.

(** A provider text without asterisks comes back from the Gemini adapter
    exactly as the provider gave it. *)
Theorem asterisk_free_text_returned_verbatim
        (filePath : string) (w : World) (node : FileNode)
        (result response : jsval) (t : string) :
  fs w !! filePath = Some node ->
  generateContent (contract_request (file_data node)) = Normal result ->
  getProp result "response" = Normal response ->
  truthy response = true ->
  getProp response "text" = Normal (JFun (JStr t)) ->
  asterisk_free t = true ->
  fst (analyzeContractWithGemini generateContent filePath w) = Normal (JStr t).
Proof.
  intros Hnode Hgen Hresp Htruthy Htext Hfree.
  rewrite analyzeContractWithGemini_run, analyzeContractWithGemini_try_run, Hnode.
  cbv zeta. rewrite Hgen.
  rewrite (response_text_ok _ _ _ Hresp Htruthy Htext), (remove_asterisks_id _ Hfree).
  reflexivity.
Qed.

End Coverage.

(** [replace(/\*/g, "")] goes through a concatenation piece by piece, does
    nothing when applied a second time, and never makes a text longer. *)
Theorem remove_asterisks_composes (a b : string) :
  remove_asterisks (a +:+ b) = remove_asterisks a +:+ remove_asterisks b /\
  remove_asterisks (remove_asterisks a) = remove_asterisks a /\
  (String.length (remove_asterisks a) <= String.length a)%nat.
Proof.
  split; [apply remove_asterisks_app|split].
  - apply remove_asterisks_id, remove_asterisks_free.
  - apply remove_asterisks_length.
Qed.

(* ===================================================================== *)
(** ** The further properties at the sample collaborators *)
(* ===================================================================== *)

Lemma analyzecontract_success_deletes_once_witness :
  Sample.files !! Sample.filePath = Some (mkFile Sample.pdf_bytes false) /\
  fst (analyzeContractWithGemini Sample.gemini_ok Sample.filePath (start Sample.files)) =
    Normal (JStr "Risk clause 4 is one-sided") /\
  let out := analyzecontract Sample.dirname Sample.path_join Sample.gemini_ok
                             (mkUpload (Some Sample.upload)) (start Sample.files) in
  fst out = Normal tt /\
  delivered (res (snd out)) =
    Some (200, JObj [("analysis", JStr "Risk clause 4 is one-sided")]) /\
  fs (snd out) !! Sample.filePath = None /\
  unlink_count Sample.filePath (trace (snd out)) = 1%nat.
Proof.
  assert (Sample.files !! Sample.filePath = Some (mkFile Sample.pdf_bytes false)) as Hnode
    by (vm_compute; reflexivity).
  assert (analyzeContractWithGemini Sample.gemini_ok Sample.filePath (start Sample.files) =
          (Normal (JStr "Risk clause 4 is one-sided"),
           snd (analyzeContractWithGemini Sample.gemini_ok Sample.filePath
                  (start Sample.files)))) as Hrun
    by (vm_compute; reflexivity).
  split; [exact Hnode|]. split; [rewrite Hrun; reflexivity|].
  exact (analyzecontract_success_deletes_once
           Sample.dirname Sample.path_join Sample.gemini_ok Sample.upload Sample.files
           (mkFile Sample.pdf_bytes false) (JStr "Risk clause 4 is one-sided") _
           Hnode eq_refl Hrun).
Defined.

Lemma analyzecontract_file_not_found_witness :
  (∅ : gmap string FileNode) !! Sample.filePath = None /\
  let out := analyzecontract Sample.dirname Sample.path_join Sample.gemini_ok
                             (mkUpload (Some Sample.upload)) (start ∅) in
  delivered (res (snd out)) =
    Some (500, JObj [("error",
                      JStr "Failed to analyze contract. Details: ENOENT: no such file or directory, open '/srv/app/uploads/3f2a9c'")]) /\
  provider_calls (trace (snd out)) = [].
Proof.
  split; [apply lookup_empty|].
  destruct (analyzecontract_file_not_found Sample.dirname Sample.path_join Sample.gemini_ok
              Sample.upload ∅ (lookup_empty _)) as (_ & Hdelivered & Hcalls & _).
  split; [exact Hdelivered|exact Hcalls].
Defined.

Lemma analyzecontract_touches_only_staged_file_witness :
  Sample.other_file <> Sample.filePath /\
  let out := analyzecontract Sample.dirname Sample.path_join Sample.gemini_ok
                             (mkUpload (Some Sample.upload)) (start Sample.two_files) in
  fs (snd out) !! Sample.other_file = Sample.two_files !! Sample.other_file /\
  unlink_count Sample.other_file (trace (snd out)) = 0%nat.
Proof.
  assert (Sample.other_file <> Sample.filePath) as Hne by discriminate.
  split; [exact Hne|].
  apply (proj2 (analyzecontract_touches_only_staged_file
                  Sample.dirname Sample.path_join Sample.gemini_ok
                  (mkUpload (Some Sample.upload)) Sample.two_files Sample.other_file)).
  intros f Hf. inversion Hf; subst f. exact Hne.
Defined.

Lemma analyzecontract_rejects_only_after_200_witness :
  let out := analyzecontract Sample.dirname Sample.path_join Sample.gemini_ok
                             (mkUpload (Some Sample.upload)) (start Sample.files_locked) in
  fst out = Throw (Error_ "Cannot set headers after they are sent to the client") /\
  exists (f : DiskFile) (node : FileNode) (analysis : jsval),
    Some Sample.upload = Some f /\
    Sample.files_locked !! Sample.path_join Sample.dirname (path f) = Some node /\
    locked node = true /\
    delivered (res (snd out)) = Some (200, JObj [("analysis", analysis)]).
Proof.
  cbv zeta.
  assert (fst (analyzecontract Sample.dirname Sample.path_join Sample.gemini_ok
                 (mkUpload (Some Sample.upload)) (start Sample.files_locked)) =
          Throw (Error_ "Cannot set headers after they are sent to the client")) as Hthrow
    by (vm_compute; reflexivity).
  split; [exact Hthrow|].
  exact (proj2 (analyzecontract_rejects_only_after_200
                  Sample.dirname Sample.path_join Sample.gemini_ok
                  (mkUpload (Some Sample.upload)) Sample.files_locked _ Hthrow)).
Defined.

Lemma analyzepdf_500_iff_extractor_throws_witness :
  Sample.pdf_unreadable Sample.pdf_bytes = Throw (Error_ "Invalid PDF structure") /\
  let out := analyzepdf Sample.groq_ok Sample.pdf_unreadable
                        (mkUpload (Some Sample.memory_upload)) (start ∅) in
  delivered (res (snd out)) = Some (500, JObj [("error", JStr "Error analyzing the PDF.")]) /\
  provider_calls (trace (snd out)) = [].
Proof.
  split; [reflexivity|].
  destruct (analyzepdf_500_iff_extractor_throws Sample.groq_ok Sample.pdf_unreadable
              (mkUpload (Some Sample.memory_upload)) ∅) as (_ & _ & Hthrows).
  exact (Hthrows Sample.memory_upload (Error_ "Invalid PDF structure") eq_refl eq_refl).
Defined.

Lemma analyze_500_iff_no_body_witness :
  nullish JUndefined = true /\
  let out := analyze Sample.groq_ok (mkJsonRequest JUndefined) (start ∅) in
  delivered (res (snd out)) = Some (500, JObj [("error", JStr "Failed to fetch AI insights")]) /\
  provider_calls (trace (snd out)) = [].
Proof.
  split; [reflexivity|].
  destruct (analyze_500_iff_no_body Sample.groq_ok JUndefined ∅) as (_ & _ & Hnull).
  exact (Hnull eq_refl).
Defined.

Lemma analyze_forwards_truthy_query_witness :
  own_prop "query" [("query", JNum (num_of_nat 42))] = Some (JNum (num_of_nat 42)) /\
  truthy (JNum (num_of_nat 42)) = true /\
  let out := analyze Sample.groq_down
                     (mkJsonRequest (JObj [("query", JNum (num_of_nat 42))])) (start ∅) in
  fst out = Normal tt /\
  provider_calls (trace (snd out)) =
    [EvChatCompletion
       (mkGroqRequest [mkMessage "user" (JNum (num_of_nat 42))] "llama-3.3-70b-versatile")] /\
  exists r,
    fst (getGroqChatCompletionForQuery Sample.groq_down (JNum (num_of_nat 42)) (start ∅)) =
      Normal r /\
    delivered (res (snd out)) = Some (200, JObj [("analysis", r)]).
Proof.
  split; [reflexivity|]. split; [reflexivity|].
  exact (analyze_forwards_truthy_query Sample.groq_down
           [("query", JNum (num_of_nat 42))] (JNum (num_of_nat 42)) ∅ eq_refl eq_refl).
Defined.

Lemma groq_adapters_read_first_choice_only_witness :
  getProp (Sample.chat_completion [JStr ""; JStr "Section 4 was added."]) "choices" =
    Normal (JArr [Sample.choice (JStr ""); Sample.choice (JStr "Section 4 was added.")]) /\
  fst (getGroqChatCompletion Sample.groq_empty_first "Clause 1." (start ∅)) =
    Normal (JStr "No response from Groq.") /\
  fst (getGroqChatCompletionForQuery Sample.groq_empty_first Sample.question (start ∅)) =
    Normal (JStr "No response").
Proof.
  split; [reflexivity|].
  destruct (groq_adapters_read_first_choice_only Sample.groq_empty_first
              "Clause 1." Sample.question (start ∅)
              (Sample.chat_completion [JStr ""; JStr "Section 4 was added."])
              (Sample.choice (JStr "")) [Sample.choice (JStr "Section 4 was added.")]
              eq_refl) as [HA HB].
  split; [rewrite (HA eq_refl)|rewrite (HB eq_refl)]; reflexivity.
Defined.

Lemma groq_adapters_missing_choices_is_error_witness :
  getProp (JObj [("error", JObj [("message", JStr "rate limit")])]) "choices" =
    Normal JUndefined /\
  fst (getGroqChatCompletion Sample.groq_no_choices_field "Clause 1." (start ∅)) =
    Normal (JStr "Error processing text with Groq.") /\
  fst (getGroqChatCompletionForQuery Sample.groq_no_choices_field Sample.question (start ∅)) =
    Normal (JStr "Error processing query with Groq.").
Proof.
  split; [reflexivity|].
  destruct (groq_adapters_missing_choices_is_error Sample.groq_no_choices_field
              "Clause 1." Sample.question (start ∅)
              (JObj [("error", JObj [("message", JStr "rate limit")])])) as [HA HB].
  { right. exists JUndefined. split; reflexivity. }
  split; [exact (HA eq_refl)|exact (HB eq_refl)].
Defined.

Lemma gemini_text_accessor_failures_witness :
  Sample.files !! Sample.filePath = Some (mkFile Sample.pdf_bytes false) /\
  fst (analyzeContractWithGemini Sample.gemini_text_not_callable Sample.filePath
         (start Sample.files)) =
    Throw (Error_ "Failed to analyze contract. Details: result.response.text is not a function") /\
  fst (analyzeContractWithGemini Sample.gemini_blocked Sample.filePath
         (start Sample.files)) =
    Throw (Error_ "Failed to analyze contract. Details: Text not available. Response was blocked due to SAFETY").
Proof.
  assert (Sample.files !! Sample.filePath = Some (mkFile Sample.pdf_bytes false)) as Hnode
    by (vm_compute; reflexivity).
  split; [exact Hnode|]. split.
  - exact (proj1 (gemini_text_accessor_failures Sample.gemini_text_not_callable
                    Sample.filePath (start Sample.files) (mkFile Sample.pdf_bytes false)
                    (JObj [("response", JObj [("text", JStr "Risk")])])
                    (JObj [("text", JStr "Risk")]) (JStr "Risk")
                    Hnode eq_refl eq_refl eq_refl eq_refl) eq_refl eq_refl).
  - exact (proj1 (proj2 (gemini_text_accessor_failures Sample.gemini_blocked
                    Sample.filePath (start Sample.files) (mkFile Sample.pdf_bytes false)
                    _ _ _ Hnode eq_refl eq_refl eq_refl eq_refl)) _ eq_refl).
Defined.

Lemma asterisk_free_text_returned_verbatim_witness :
  Sample.files !! Sample.filePath = Some (mkFile Sample.pdf_bytes false) /\
  asterisk_free "Clause 4 is one-sided." = true /\
  fst (analyzeContractWithGemini Sample.gemini_plain Sample.filePath (start Sample.files)) =
    Normal (JStr "Clause 4 is one-sided.").
Proof.
  assert (Sample.files !! Sample.filePath = Some (mkFile Sample.pdf_bytes false)) as Hnode
    by (vm_compute; reflexivity).
  split; [exact Hnode|]. split; [reflexivity|].
  exact (asterisk_free_text_returned_verbatim Sample.gemini_plain Sample.filePath
           (start Sample.files) (mkFile Sample.pdf_bytes false)
           (Sample.gemini_result "Clause 4 is one-sided.")
           (JObj [("text", JFun (JStr "Clause 4 is one-sided."))]) "Clause 4 is one-sided."
           Hnode eq_refl eq_refl eq_refl eq_refl eq_refl).
Defined.
